(** * A shallow embedding of [starter-code-simple/app.py]

    The program is a small Flask service over one SQLite table:
    [GET /health], [GET /users], [POST /users] and [POST /login].
    Handlers are embedded as computations in a state-and-exception monad
    over a [world] that holds the database, the trace of connection
    events and the log.  The bcrypt library is an interface ([Bcrypt]);
    SQLite and Flask are modelled by the behaviour their documentation
    gives for the calls the program makes. *)

From Stdlib Require Import String Ascii List ZArith NArith Bool Lia.
From Stdlib Require Import Permutation.
From Stdlib.Strings Require Import Byte.
Import ListNotations.
Local Open Scope string_scope.
Local Open Scope list_scope.
Local Open Scope Z_scope.

(** ** Python strings

    A [str] is a [string]: a sequence of characters whose code points lie
    below 256.  [len] counts characters.  Every statement below is about
    such strings; a [str] with a higher code point, and with it the lone
    surrogates on which [encode] raises, lies outside the model. *)

Module PyStr.

(** [str.isspace] on one character, for the code points below 256:
    TAB..CR, FS..US, SPACE, NEL (0x85) and NBSP (0xA0). *)
Definition is_space (c : ascii) : bool :=
  let n := N_of_ascii c in
  ((9 <=? n) && (n <=? 13) || (28 <=? n) && (n <=? 32)
   || (n =? 133) || (n =? 160))%N.

Definition is_empty (s : string) : bool :=
  match s with EmptyString => true | String _ _ => false end.

(** [s.lstrip()] *)
Fixpoint lstrip (s : string) : string :=
  match s with
  | EmptyString => EmptyString
  | String c s' => if is_space c then lstrip s' else s
  end.

(** [s.rstrip()] *)
Fixpoint rstrip (s : string) : string :=
  match s with
  | EmptyString => EmptyString
  | String c s' =>
      let r := rstrip s' in
      if is_space c && is_empty r then EmptyString else String c r
  end.

(** [s.strip()]: whitespace removed at both ends. *)
Definition strip (s : string) : string := rstrip (lstrip s).

(** [s] is empty or begins with a character that is not whitespace. *)
Definition clean_head (s : string) : Prop :=
  match s with
  | EmptyString => True
  | String c _ => is_space c = false
  end.

(** [len(s)] *)
Definition len (s : string) : Z := Z.of_nat (String.length s).

Fixpoint has_slash (p : string) : bool :=
  match p with
  | EmptyString => false
  | String c p' => Ascii.eqb c "/" || has_slash p'
  end.

(** [os.path.basename] on POSIX: what follows the last slash. *)
Fixpoint basename (p : string) : string :=
  match p with
  | EmptyString => EmptyString
  | String c p' =>
      if has_slash p' then basename p'
      else if Ascii.eqb c "/" then p' else p
  end.

(** [t] is what remains of [s] after dropping some first characters. *)
Fixpoint is_suffix (t s : string) : bool :=
  String.eqb t s ||
  match s with
  | EmptyString => false
  | String _ s' => is_suffix t s'
  end.

End PyStr.

(** ** UTF-8, for the code points below 256 *)

Module Utf8.

Definition bytes := list byte.

Definition byte_of_N (n : N) : byte := byte_of_ascii (ascii_of_N n).

(** One character: one byte below 128, two bytes from 128 on. *)
Definition encode_char (c : ascii) : bytes :=
  let n := N_of_ascii c in
  if (n <? 128)%N then [byte_of_N n]
  else [byte_of_N (192 + n / 64); byte_of_N (128 + n mod 64)].

(** [s.encode("utf-8")] *)
Fixpoint encode (s : string) : bytes :=
  match s with
  | EmptyString => []
  | String c s' => encode_char c ++ encode s'
  end.

(** [b.decode("utf-8")]; [None] stands for [UnicodeDecodeError].  Only the
    one-byte form and the two-byte forms of the code points 128..255 are
    decoded. *)
Fixpoint decode (bs : bytes) : option string :=
  match bs with
  | [] => Some EmptyString
  | b :: tl =>
      let n := Byte.to_N b in
      if (n <? 128)%N then option_map (String (ascii_of_N n)) (decode tl)
      else
        match tl with
        | [] => None
        | b2 :: tl' =>
            let n2 := Byte.to_N b2 in
            if ((194 <=? n) && (n <=? 195) && (128 <=? n2) && (n2 <? 192))%N
            then option_map (String (ascii_of_N ((n - 192) * 64 + (n2 - 128))))
                            (decode tl')
            else None
        end
  end.

Definition is_ascii (b : byte) : bool := (Byte.to_N b <? 128)%N.

Fixpoint bytes_eqb (a b : bytes) : bool :=
  match a, b with
  | [], [] => true
  | x :: a', y :: b' => Byte.eqb x y && bytes_eqb a' b'
  | _, _ => false
  end.

End Utf8.
Import PyStr Utf8.

(** ** Python values, exceptions and the handler monad *)

(** The values [request.get_json()] can return and [jsonify] can take.
    Numbers are the integers. *)
#[warnings="-register-all"]
Inductive pyval : Type :=
| PNone
| PBool (b : bool)
| PInt (n : Z)
| PStr (s : string)
| PList (l : list pyval)
| PDict (d : list (string * pyval)).

(** The exceptions the program can meet. *)
Inductive exn : Type :=
| AttributeError      (* a method the object does not have *)
| BadRequest          (* werkzeug: the body does not parse as JSON *)
| IndexError          (* sqlite3.Row: no such column *)
| ValueError          (* bcrypt: a password or a hash it does not take *)
| UnicodeDecodeError
| OperationalError    (* sqlite3 *)
| IntegrityError.     (* sqlite3: a constraint failed *)

Inductive result (A : Type) : Type :=
| Ok (a : A)
| Raise (e : exn).
Arguments Ok {A} a.
Arguments Raise {A} e.

(** Truth value of an object, as [not x] and [if x] test it. *)
Definition truthy (v : pyval) : bool :=
  match v with
  | PNone => false
  | PBool b => b
  | PInt n => negb (n =? 0)
  | PStr s => negb (is_empty s)
  | PList l => match l with [] => false | _ :: _ => true end
  | PDict d => match d with [] => false | _ :: _ => true end
  end.

(** [isinstance(v, str)] *)
Definition isinstance_str (v : pyval) : bool :=
  match v with PStr _ => true | _ => false end.

(** Lookup in a dict held as an association list. *)
Fixpoint assoc {A : Type} (k : string) (d : list (string * A)) : option A :=
  match d with
  | [] => None
  | (k', v) :: d' => if String.eqb k k' then Some v else assoc k d'
  end.

(** ** SQLite: the [users] table *)

Record user_row : Type := mk_row {
  row_id : Z;
  row_username : string;
  row_password : string
}.

(** [seq] is the table's entry in [sqlite_sequence]: the largest id that
    AUTOINCREMENT has handed out. *)
Record table : Type := mk_table {
  rows : list user_row;
  seq : Z
}.

Inductive database : Type :=
| DbUnreachable             (* [sqlite3.connect] fails *)
| DbNoTable                 (* the file opens, [users] was never created *)
| DbReady (t : table).

(** The statements the program executes, with their bound parameters. *)
Inductive stmt : Type :=
| CreateUsersTable                                 (* create_sql *)
| SelectIdUsername                                 (* SELECT id, username FROM users *)
| InsertUser (username password : string)          (* insert_sql *)
| SelectByUsername (username : string).            (* select_sql *)

Definition conn := nat.

Inductive db_event : Type :=
| EvConnect (c : conn)
| EvConnectFailed
| EvExecute (c : conn) (s : stmt)
| EvCommit (c : conn)
| EvRollback (c : conn)
| EvClose (c : conn).

(** A [sqlite3.Row]: column name to value. *)
Definition row := list (string * pyval).

Definition empty_table : table := mk_table [] 0.

Definition username_taken (u : string) (t : table) : bool :=
  existsb (fun r => String.eqb (row_username r) u) (rows t).

Definition max_id (l : list user_row) : Z :=
  fold_right (fun r m => Z.max (row_id r) m) 0 l.

(** AUTOINCREMENT: one more than the largest id ever used. *)
Definition next_id (t : table) : Z := Z.max (seq t) (max_id (rows t)) + 1.

Definition insert_row (u p : string) (t : table) : table :=
  mk_table (rows t ++ [mk_row (next_id t) u p]) (next_id t).

(** [memcmp] on two byte strings, the shorter first when one begins the
    other: the BINARY collation of a TEXT column. *)
Fixpoint bytes_leb (a b : bytes) : bool :=
  match a, b with
  | [], _ => true
  | _ :: _, [] => false
  | x :: a', y :: b' =>
      if (Byte.to_N x <? Byte.to_N y)%N then true
      else if (Byte.to_N y <? Byte.to_N x)%N then false
      else bytes_leb a' b'
  end.

(** The order of the entries of the index that [UNIQUE] puts on
    [username]: by username, then by id. *)
Definition index_leb (r1 r2 : user_row) : bool :=
  let k1 := encode (row_username r1) in
  let k2 := encode (row_username r2) in
  if bytes_leb k1 k2
  then if bytes_leb k2 k1 then row_id r1 <=? row_id r2 else true
  else false.

Fixpoint index_insert (r : user_row) (l : list user_row) : list user_row :=
  match l with
  | [] => [r]
  | x :: l' => if index_leb r x then r :: l else x :: index_insert r l'
  end.

(** The rows as a scan of that index meets them. *)
Definition index_order (l : list user_row) : list user_row :=
  fold_right index_insert [] l.

Definition project_id_username (r : user_row) : row :=
  [("id", PInt (row_id r)); ("username", PStr (row_username r))].

Definition project_all (r : user_row) : row :=
  [("id", PInt (row_id r)); ("username", PStr (row_username r));
   ("password", PStr (row_password r))].

(** One statement against the table: the rows it returns and the table
    afterwards.  The UNIQUE constraint on [username] rejects the insert.
    The SELECT of [id] and [username] is answered from the index on
    [username], which holds both columns, so its rows come in the order of
    the index. *)
Definition run_stmt (s : stmt) (t : table) : result (list row) * table :=
  match s with
  | CreateUsersTable => (Ok [], t)                (* IF NOT EXISTS *)
  | SelectIdUsername => (Ok (map project_id_username (index_order (rows t))), t)
  | InsertUser u p =>
      if username_taken u t then (Raise IntegrityError, t)
      else (Ok [], insert_row u p t)
  | SelectByUsername u =>
      (Ok (map project_all
             (filter (fun r => String.eqb (row_username r) u) (rows t))), t)
  end.

(** The same against a database in any condition. *)
Definition db_execute (s : stmt) (d : database)
  : result (list row) * database :=
  match d with
  | DbUnreachable => (Raise OperationalError, d)
  | DbNoTable =>
      match s with
      | CreateUsersTable => (Ok [], DbReady empty_table)
      | _ => (Raise OperationalError, d)          (* no such table: users *)
      end
  | DbReady t => let (r, t') := run_stmt s t in (r, DbReady t')
  end.

(** ** The world and the monad *)

Inductive log_level : Type := INFO | ERROR.

(** A log record keeps the format string and its arguments apart, as
    [logging] does. *)
Record log_record : Type := mk_log {
  log_level_of : log_level;
  log_msg : string;
  log_args : list pyval
}.

(** [log] holds the records of the logger named [__name__]: the module's
    [logger] and, the application being [Flask(__name__)], [app.logger]. *)
Record world : Type := mk_world {
  db : database;
  trace : list db_event;        (* oldest first *)
  log : list log_record         (* oldest first *)
}.

Definition Py (A : Type) : Type := world -> result A * world.

Definition ret {A : Type} (a : A) : Py A := fun w => (Ok a, w).

Definition raise {A : Type} (e : exn) : Py A := fun w => (Raise e, w).

Definition bind {A B : Type} (m : Py A) (k : A -> Py B) : Py B :=
  fun w =>
    match m w with
    | (Ok a, w') => k a w'
    | (Raise e, w') => (Raise e, w')
    end.

(** [try: m  except ...: h e] *)
Definition try_except {A : Type} (m : Py A) (h : exn -> Py A) : Py A :=
  fun w =>
    match m w with
    | (Ok a, w') => (Ok a, w')
    | (Raise e, w') => h e w'
    end.

Declare Scope py_scope.
Delimit Scope py_scope with py.
Notation "x <- m ;; k" := (bind m (fun x => k))
  (at level 61, m at next level, right associativity) : py_scope.
Notation "m ;;; k" := (bind m (fun _ => k))
  (at level 61, right associativity) : py_scope.
Local Open Scope py_scope.

Fixpoint mapM {A B : Type} (f : A -> Py B) (l : list A) : Py (list B) :=
  match l with
  | [] => ret []
  | a :: l' => b <- f a ;; bs <- mapM f l' ;; ret (b :: bs)
  end.

Definition emit (e : db_event) : Py unit :=
  fun w => (Ok tt, mk_world (db w) (trace w ++ [e]) (log w)).

(** [logger.info(msg, *args)] *)
Definition logger_info (msg : string) (args : list pyval) : Py unit :=
  fun w => (Ok tt, mk_world (db w) (trace w) (log w ++ [mk_log INFO msg args])).

(** [logger.exception(msg)] *)
Definition logger_exception (msg : string) : Py unit :=
  fun w => (Ok tt, mk_world (db w) (trace w) (log w ++ [mk_log ERROR msg []])).

(** ** Connections *)

Definition is_connect (e : db_event) : bool :=
  match e with EvConnect _ => true | _ => false end.

(** A handle no earlier connection has. *)
Definition fresh_conn (tr : list db_event) : conn :=
  length (filter is_connect tr).

Definition remove_conn (c : conn) (l : list conn) : list conn :=
  filter (fun c' => negb (Nat.eqb c c')) l.

(** The connections a trace leaves open: connected and not closed since. *)
Fixpoint open_conns_from (acc : list conn) (tr : list db_event) : list conn :=
  match tr with
  | [] => acc
  | EvConnect c :: tr' => open_conns_from (acc ++ [c]) tr'
  | EvClose c :: tr' => open_conns_from (remove_conn c acc) tr'
  | _ :: tr' => open_conns_from acc tr'
  end.

Definition open_conns (w : world) : list conn := open_conns_from [] (trace w).

(** [get_db_connection]: [sqlite3.connect(DATABASE_PATH, isolation_level=None)]
    and the row factory. *)
Definition get_db_connection : Py conn :=
  fun w =>
    match db w with
    | DbUnreachable => (emit EvConnectFailed ;;; raise OperationalError) w
    | _ => let c := fresh_conn (trace w) in (emit (EvConnect c) ;;; ret c) w
    end.

(** [Connection.close()].  The program never calls it. *)
Definition conn_close (c : conn) : Py unit := emit (EvClose c).

(** [conn.execute(sql, params)].  With [isolation_level=None] the
    connection is in autocommit mode: the statement takes effect at once. *)
Definition conn_execute (c : conn) (s : stmt) : Py (list row) :=
  fun w =>
    let (r, d') := db_execute s (db w) in
    (r, mk_world d' (trace w ++ [EvExecute c s]) (log w)).

(** [with mgr as c: body] for a [sqlite3.Connection]: leaving the block
    commits, or rolls back when the body raised, and does not close the
    connection; the exception goes on. *)
Definition with_connection {A : Type} (mgr : Py conn) (body : conn -> Py A)
  : Py A :=
  c <- mgr ;;
  try_except (a <- body c ;; emit (EvCommit c) ;;; ret a)
             (fun e => emit (EvRollback c) ;;; raise e).

(** [cursor.fetchone()] *)
Definition fetchone (rs : list row) : option row :=
  match rs with [] => None | r :: _ => Some r end.

(** [r[col]] *)
Definition row_get (r : row) (col : string) : Py pyval :=
  match assoc col r with
  | Some v => ret v
  | None => raise IndexError
  end.

(** ** Methods of the values *)

(** [d.get(key, default)] on a dict *)
Definition dict_get (d : list (string * pyval)) (key : string)
  (default : pyval) : pyval :=
  match assoc key d with Some v => v | None => default end.

(** [data.get(key, default)] on any value *)
Definition py_get (data : pyval) (key : string) (default : pyval) : Py pyval :=
  match data with
  | PDict d => ret (dict_get d key default)
  | _ => raise AttributeError
  end.

(** [v.strip()] *)
Definition py_strip (v : pyval) : Py string :=
  match v with
  | PStr s => ret (strip s)
  | _ => raise AttributeError
  end.

(** [v.encode("utf-8")].  On the strings of the model the encoding
    always exists. *)
Definition py_encode (v : pyval) : Py bytes :=
  match v with
  | PStr s => ret (encode s)
  | _ => raise AttributeError
  end.

(** [b.decode("utf-8")] *)
Definition py_decode (b : bytes) : Py string :=
  match decode b with
  | Some s => ret s
  | None => raise UnicodeDecodeError
  end.

(** ** bcrypt *)

(** [hashpw password salt] and [checkpw password hashed]; the salt is what
    [bcrypt.gensalt()] drew for the call.  Either raises [ValueError]:
    [hashpw] on a password it does not take (bcrypt 5 refuses more than
    72 bytes), [checkpw] on such a password or on a stored value that is
    not a bcrypt hash. *)
Class Bcrypt : Type := {
  hashpw : bytes -> bytes -> option bytes;  (* [None]: [ValueError] *)
  checkpw : bytes -> bytes -> option bool   (* [None]: [ValueError] *)
}.

(** What the handlers rely on: a hash that [hashpw] returns is ASCII
    text, and the password checks against it. *)
Record BcryptLaws (B : Bcrypt) : Prop := {
  hashpw_ascii :
    forall p s h, hashpw p s = Some h -> forallb is_ascii h = true;
  checkpw_hashpw :
    forall p s h, hashpw p s = Some h -> checkpw p h = Some true
}.

(** [bcrypt.hashpw(password, salt)] as a step of a handler. *)
Definition bcrypt_hashpw {B : Bcrypt} (password salt : bytes) : Py bytes :=
  match hashpw password salt with
  | Some h => ret h
  | None => raise ValueError
  end.

(** The text [bcrypt.hashpw(password, salt).decode("utf-8")], when
    neither step raises. *)
Definition hashed_text {B : Bcrypt} (password salt : bytes) : option string :=
  match hashpw password salt with
  | Some h => decode h
  | None => None
  end.

(** [bcrypt.checkpw(password, hashed)] as a step of a handler. *)
Definition bcrypt_checkpw {B : Bcrypt} (password hashed : bytes) : Py bool :=
  match checkpw password hashed with
  | Some b => ret b
  | None => raise ValueError
  end.

(** ** Flask *)

Record request : Type := mk_request {
  is_json : bool;                (* the content type says JSON *)
  json_body : option pyval       (* the parsed body, if it parses *)
}.

Record response : Type := mk_response {
  body : pyval;
  status : Z
}.

(** [request.get_json()] *)
Definition get_json (req : request) : Py pyval :=
  match json_body req with
  | Some v => ret v
  | None => raise BadRequest
  end.

Definition jsonify (d : list (string * pyval)) : pyval := PDict d.

Inductive wire_body : Type :=
| Json (v : pyval)
| ErrorPage.                     (* Flask's own page for an error status *)

(** [app.log_exception]: one ERROR record naming the path and the method. *)
Definition log_exception (path method : string) (w : world) : world :=
  mk_world (db w) (trace w)
    (log w ++ [mk_log ERROR
                 (String.append "Exception on "
                    (String.append path
                       (String.append " ["
                          (String.append method "]")))) []]).

(** What the client gets from the view function [h] registered for
    [path] and [method]: the handler's response; 400 for [BadRequest]; for
    any other exception that leaves the handler, 500 after Flask has
    logged it. *)
Definition flask_dispatch (path method : string) (h : Py response) (w : world)
  : (Z * wire_body) * world :=
  match h w with
  | (Ok r, w') => ((status r, Json (body r)), w')
  | (Raise BadRequest, w') => ((400, ErrorPage), w')
  | (Raise _, w') => ((500, ErrorPage), log_exception path method w')
  end.

(** ** Configuration *)

Definition environ := string -> option string.

(** [os.getenv(key, default)] *)
Definition getenv (env : environ) (key default : string) : string :=
  match env key with Some v => v | None => default end.

Definition DATABASE_PATH (env : environ) : string :=
  getenv env "DATABASE_PATH" "users.db".

(** ** The program *)

Definition init_db : Py unit :=
  with_connection get_db_connection
    (fun conn => conn_execute conn CreateUsersTable ;;; ret tt).

Definition username_error : string := "Username must be at least 3 characters.".
Definition password_error : string := "Password must be at least 8 characters.".

(** [len(v.strip()) < n] and [len(v) < n]; [or] reaches them only once
    [isinstance(v, str)] holds, so the other cases are never consulted. *)
Definition len_strip_lt (v : pyval) (n : Z) : bool :=
  match v with PStr s => len (strip s) <? n | _ => true end.

Definition len_lt (v : pyval) (n : Z) : bool :=
  match v with PStr s => len s <? n | _ => true end.

Definition validate_username_password (username password : pyval)
  : option string :=
  if negb (truthy username) || negb (isinstance_str username)
     || len_strip_lt username 3
  then Some username_error
  else if negb (truthy password) || negb (isinstance_str password)
          || len_lt password 8
  then Some password_error
  else None.

Definition health_check (env : environ) : Py response :=
  ret (mk_response
         (jsonify [("status", PStr "healthy");
                   ("database", PStr (basename (DATABASE_PATH env)))])
         200).

(** [{"id": r["id"], "username": r["username"]}], the element of the
    comprehension in [get_users]. *)
Definition id_and_username (r : row) : Py pyval :=
  i <- row_get r "id" ;;
  u <- row_get r "username" ;;
  ret (PDict [("id", i); ("username", u)]).

Definition get_users : Py response :=
  users <- with_connection get_db_connection (fun conn =>
    rows <- conn_execute conn SelectIdUsername ;;
    mapM id_and_username rows) ;;
  ret (mk_response (jsonify [("users", PList users)]) 200).

(** Lines 83 to 85 of [create_user], and 119 to 121 of [login]. *)
Definition read_credentials (req : request) : Py (string * pyval) :=
  data <- get_json req ;;
  raw <- py_get data "username" (PStr "") ;;
  username <- py_strip raw ;;
  password <- py_get data "password" (PStr "") ;;
  ret (username, password).

Section Handlers.
Context {B : Bcrypt}.

(** [salt] is the value of [bcrypt.gensalt()] in this call. *)
Definition create_user (salt : bytes) (req : request) : Py response :=
  if negb (is_json req) then
    ret (mk_response (jsonify [("error", PStr "Request must be JSON")]) 400)
  else
    cred <- read_credentials req ;;
    let (username, password) := cred in
    match validate_username_password (PStr username) password with
    | Some error => ret (mk_response (jsonify [("error", PStr error)]) 400)
    | None =>
        pw <- py_encode password ;;
        hashed <- bcrypt_hashpw pw salt ;;
        hashed_str <- py_decode hashed ;;
        failed <- try_except
          (with_connection get_db_connection (fun conn =>
             conn_execute conn (InsertUser username hashed_str) ;;; ret tt) ;;;
           ret None)
          (fun e =>
             match e with
             | IntegrityError =>
                 logger_info "Attempt to create duplicate user: %s"
                             [PStr username] ;;;
                 ret (Some (mk_response
                              (jsonify [("error", PStr "Username already exists")])
                              409))
             | _ =>
                 logger_exception "Unexpected error when creating user" ;;;
                 ret (Some (mk_response
                              (jsonify [("error", PStr "Internal server error")])
                              500))
             end) ;;
        match failed with
        | Some r => ret r
        | None =>
            logger_info "Created user: %s" [PStr username] ;;;
            ret (mk_response
                   (jsonify [("message", PStr "User created");
                             ("username", PStr username)])
                   201)
        end
    end.

Definition invalid_credentials : response :=
  mk_response (jsonify [("message", PStr "Invalid credentials")]) 401.

Definition login (req : request) : Py response :=
  if negb (is_json req) then
    ret (mk_response (jsonify [("error", PStr "Request must be JSON")]) 400)
  else
    cred <- read_credentials req ;;
    let (username, password) := cred in
    if negb (truthy (PStr username)) || negb (truthy password) then
      ret (mk_response
             (jsonify [("error", PStr "Missing username or password")]) 400)
    else
      looked <- try_except
        (r <- with_connection get_db_connection (fun conn =>
                rs <- conn_execute conn (SelectByUsername username) ;;
                ret (fetchone rs)) ;;
         ret (inr r))
        (fun _ =>
           logger_exception "DB error during login" ;;;
           ret (inl (mk_response
                       (jsonify [("error", PStr "Internal server error")])
                       500))) ;;
      match looked with
      | inl r => ret r
      | inr None =>
          logger_info "Failed login attempt for username: %s" [PStr username] ;;;
          ret invalid_credentials
      | inr (Some row) =>
          stored <- row_get row "password" ;;
          stored_hash <- py_encode stored ;;
          pw <- py_encode password ;;
          ok <- bcrypt_checkpw pw stored_hash ;;
          if ok then
            i <- row_get row "id" ;;
            u <- row_get row "username" ;;
            logger_info "Successful login for user id=%s username=%s" [i; u] ;;;
            i' <- row_get row "id" ;;
            ret (mk_response
                   (jsonify [("message", PStr "Login successful");
                             ("user_id", i')])
                   200)
          else
            logger_info "Failed login attempt for username: %s"
                        [PStr username] ;;;
            ret invalid_credentials
      end.

End Handlers.

(** ** Vocabulary of the statements *)

(** A JSON request with the given body. *)
Definition json_request (v : pyval) : request := mk_request true (Some v).

(** The body [{"username": u, "password": p}]. *)
Definition post_credentials (u p : string) : request :=
  json_request (PDict [("username", PStr u); ("password", PStr p)]).

(** The record [get_users] builds for a row. *)
Definition user_record (r : user_row) : pyval :=
  PDict [("id", PInt (row_id r)); ("username", PStr (row_username r))].

(** The [users] array of a response, empty when there is none. *)
Definition response_users (r : result response) : list pyval :=
  match r with
  | Ok resp =>
      match body resp with
      | PDict d => match assoc "users" d with Some (PList us) => us | _ => [] end
      | _ => []
      end
  | Raise _ => []
  end.

(** The field names of a record; a value that is no dict has none. *)
Definition record_keys (v : pyval) : list string :=
  match v with PDict d => map fst d | _ => [] end.

(** Is [rec] the listed record of user [u]? *)
Definition record_of (u : string) (rec : pyval) : bool :=
  match rec with
  | PDict d =>
      match assoc "username" d with
      | Some (PStr u') => String.eqb u' u
      | _ => false
      end
  | _ => false
  end.

(** The id the list gives for [u]. *)
Definition listed_id (u : string) (us : list pyval) : option pyval :=
  match find (record_of u) us with
  | Some (PDict d) => assoc "id" d
  | _ => None
  end.

(** The row [SELECT ... WHERE username = u] returns first. *)
Definition find_user (u : string) (t : table) : option user_row :=
  find (fun r => String.eqb (row_username r) u) (rows t).

(** The world with every stored password rewritten by [f]. *)
Definition map_passwords (f : string -> string) (w : world) : world :=
  match db w with
  | DbReady t =>
      mk_world
        (DbReady (mk_table
                    (map (fun r => mk_row (row_id r) (row_username r)
                                          (f (row_password r))) (rows t))
                    (seq t)))
        (trace w) (log w)
  | _ => w
  end.

Definition count_rows (w : world) : Z :=
  match db w with
  | DbReady t => Z.of_nat (length (rows t))
  | _ => 0
  end.

(** ** Two small instances of the bcrypt interface

    They are not bcrypt: they spell each byte of the password with two
    letters and ignore the salt.  [demo_bcrypt] takes every password;
    [bcrypt5] refuses a password of more than 72 bytes, in [hashpw] and in
    [checkpw], as bcrypt does from version 5.  Both satisfy [BcryptLaws]
    and let the handlers run on concrete requests. *)

Module Demo.

Definition spell (b : byte) : bytes :=
  let n := Byte.to_N b in [byte_of_N (97 + n / 16); byte_of_N (97 + n mod 16)].

Definition demo_hashpw (p salt : bytes) : option bytes :=
  Some (flat_map spell p).

Definition demo_checkpw (p hashed : bytes) : option bool :=
  Some (bytes_eqb (flat_map spell p) hashed).

#[export] Instance demo_bcrypt : Bcrypt :=
  {| hashpw := demo_hashpw; checkpw := demo_checkpw |}.

Definition too_long (p : bytes) : bool := (72 <? length p)%nat.

Definition bcrypt5 : Bcrypt :=
  {| hashpw := fun p salt => if too_long p then None else demo_hashpw p salt;
     checkpw := fun p hashed => if too_long p then None else demo_checkpw p hashed |}.

(** A password of 73 characters, each one byte in UTF-8. *)
Definition long_password : string :=
  "aaaaaaaaaaaaaaaaaaaaaaaaaaaaaaaaaaaaaaaaaaaaaaaaaaaaaaaaaaaaaaaaaaaaaaaaa".

(** The world at start-up, after [init_db]. *)
Definition fresh_world : world := mk_world (DbReady empty_table) [] [].

(** The same after [alice123] has registered with [correct-horse]. *)
Definition alice_world : world :=
  snd (create_user [] (post_credentials "alice123" "correct-horse") fresh_world).

End Demo.

(** ** The routes and the life of the process *)

(** One request to the service: the four [@app.route] entries.  A
    registration carries the salt that [bcrypt.gensalt()] draws for it. *)
Inductive call : Type :=
| GetHealth                                   (* GET /health *)
| GetUsers                                    (* GET /users *)
| PostUsers (salt : bytes) (req : request)    (* POST /users *)
| PostLogin (req : request).                  (* POST /login *)

Section Routes.
Context {B : Bcrypt}.

Definition route (env : environ) (c : call) : Py response :=
  match c with
  | GetHealth => health_check env
  | GetUsers => get_users
  | PostUsers salt req => create_user salt req
  | PostLogin req => login req
  end.

(** The world after the requests [cs], served one after the other. *)
Fixpoint serve_all (env : environ) (cs : list call) (w : world) : world :=
  match cs with
  | [] => w
  | c :: cs' => serve_all env cs' (snd (route env c w))
  end.

End Routes.

(** The environment in which no variable is set. *)
Definition empty_environ : environ := fun _ => None.

(** ** Vocabulary of the invariants *)

Definition usernames (t : table) : list string := map row_username (rows t).

Definition ids (t : table) : list Z := map row_id (rows t).

(** A username as registration stores it: trimmed, three characters or more. *)
Definition stored_form (u : string) : Prop := strip u = u /\ 3 <= len u.

Definition table_ok (t : table) : Prop :=
  NoDup (usernames t) /\ NoDup (ids t) /\ Forall stored_form (usernames t).

Definition db_ok (d : database) : Prop :=
  match d with
  | DbReady t => table_ok t
  | _ => True
  end.

(** The events a request may add to the trace: none, a failed connect, or
    one statement on the connection [c] followed by commit or rollback. *)
Definition one_operation (c : conn) (evs : list db_event) : Prop :=
  evs = [] \/ evs = [EvConnectFailed] \/
  exists s, evs = [EvConnect c; EvExecute c s; EvCommit c]
            \/ evs = [EvConnect c; EvExecute c s; EvRollback c].

(** * Properties *)

(** ** Strings *)

Module PyStrFacts.

Lemma lstrip_clean_head (s : string) : clean_head (lstrip s).
Proof.
  induction s as [|c s IH]; simpl; [exact I|].
  destruct (is_space c) eqn:E; [exact IH|exact E].
Qed.

Lemma lstrip_fixed (s : string) : clean_head s -> lstrip s = s.
Proof.
  destruct s as [|c s]; simpl; [reflexivity|].
  intros ->. reflexivity.
Qed.

Lemma rstrip_clean_head (s : string) : clean_head s -> clean_head (rstrip s).
Proof.
  destruct s as [|c s]; simpl; [exact id|].
  intros E. rewrite E. exact E.
Qed.

Lemma rstrip_idempotent (s : string) : rstrip (rstrip s) = rstrip s.
Proof.
  induction s as [|c s IH]; simpl; [reflexivity|].
  destruct (is_space c && is_empty (rstrip s)) eqn:E; simpl; [reflexivity|].
  rewrite IH, E. reflexivity.
Qed.

(** Trimming what is already trimmed changes nothing. *)
Lemma strip_idempotent (s : string) : strip (strip s) = strip s.
Proof.
  unfold strip.
  rewrite (lstrip_fixed (rstrip (lstrip s))).
  - apply rstrip_idempotent.
  - apply rstrip_clean_head, lstrip_clean_head.
Qed.

Lemma is_empty_len (s : string) : is_empty s = (len s =? 0).
Proof. destruct s; reflexivity. Qed.

Lemma has_slash_basename (p : string) : has_slash (basename p) = false.
Proof.
  induction p as [|c p IH]; simpl; [reflexivity|].
  destruct (has_slash p) eqn:E; [exact IH|].
  destruct (Ascii.eqb c "/") eqn:Ec; simpl; [exact E|].
  rewrite Ec, E. reflexivity.
Qed.

Lemma is_suffix_refl (s : string) : is_suffix s s = true.
Proof. destruct s; simpl; rewrite ?String.eqb_refl, ?Ascii.eqb_refl; reflexivity. Qed.

Lemma is_suffix_basename (p : string) : is_suffix (basename p) p = true.
Proof.
  induction p as [|c p IH]; [reflexivity|].
  cbn [basename].
  destruct (has_slash p).
  - cbn [is_suffix]. rewrite IH. apply orb_true_r.
  - destruct (Ascii.eqb c "/").
    + cbn [is_suffix]. rewrite is_suffix_refl. apply orb_true_r.
    + apply is_suffix_refl.
Qed.

End PyStrFacts.

(** ** UTF-8 *)

Module Utf8Facts.

Lemma decode_encode_char (c : ascii) (tl : bytes) :
  decode (encode_char c ++ tl) = option_map (String c) (decode tl).
Proof.
  destruct c as [[] [] [] [] [] [] [] []]; reflexivity.
Qed.

(** Decoding undoes encoding. *)
Lemma decode_encode (s : string) : decode (encode s) = Some s.
Proof.
  induction s as [|c s IH]; simpl; [reflexivity|].
  rewrite decode_encode_char, IH. reflexivity.
Qed.

Lemma encode_ascii_byte (b : byte) :
  is_ascii b = true -> encode_char (ascii_of_N (Byte.to_N b)) = [b].
Proof.
  destruct b; intros H; try reflexivity; discriminate H.
Qed.

(** ASCII bytes decode, and encode back to themselves. *)
Lemma decode_ascii (bs : bytes) :
  forallb is_ascii bs = true ->
  exists s, decode bs = Some s /\ encode s = bs.
Proof.
  induction bs as [|b bs IH]; simpl.
  - intros _. exists EmptyString. split; reflexivity.
  - intros H. apply andb_prop in H. destruct H as [Hb Hbs].
    destruct (IH Hbs) as (s & Hd & He).
    exists (String (ascii_of_N (Byte.to_N b)) s).
    unfold is_ascii in Hb. rewrite Hb, Hd. split; [reflexivity|].
    simpl. rewrite encode_ascii_byte by exact Hb. rewrite He. reflexivity.
Qed.

Lemma bytes_eqb_refl (a : bytes) : bytes_eqb a a = true.
Proof.
  induction a as [|x a IH]; simpl; [reflexivity|].
  rewrite IH, andb_true_r. apply Byte.byte_dec_lb. reflexivity.
Qed.

End Utf8Facts.

(** ** The store operations *)

Ltac run :=
  cbv beta iota zeta delta
    [bind ret raise try_except emit logger_info logger_exception
     with_connection get_db_connection conn_execute bcrypt_checkpw bcrypt_hashpw row_get
     py_get py_strip py_encode py_decode get_json read_credentials
     json_request post_credentials json_body is_json db_execute run_stmt
     invalid_credentials jsonify];
  cbn [db trace log fst snd negb].

Ltac tidy := cbn [db trace log fst snd]; rewrite <- ?app_assoc; cbn [app].

Module StoreFacts.

Lemma fetchone_filter (f : user_row -> bool) (l : list user_row) :
  fetchone (map project_all (filter f l)) = option_map project_all (find f l).
Proof.
  induction l as [|r l IH]; simpl; [reflexivity|].
  destruct (f r); [reflexivity|exact IH].
Qed.

Lemma find_app_fresh (f : user_row -> bool) (l : list user_row) (r : user_row) :
  existsb f l = false -> f r = true -> find f (l ++ [r]) = Some r.
Proof.
  induction l as [|x l IH]; simpl; intros Hl Hr.
  - rewrite Hr. reflexivity.
  - apply orb_false_elim in Hl. destruct Hl as [Hx Hl].
    rewrite Hx. apply IH; assumption.
Qed.



Lemma index_insert_perm (r : user_row) (l : list user_row) :
  Permutation (index_insert r l) (r :: l).
Proof.
  induction l as [|x l IH]; cbn [index_insert]; [reflexivity|].
  destruct (index_leb r x); [reflexivity|].
  rewrite IH. apply perm_swap.
Qed.

(** A scan of the index meets every row, once. *)
Lemma index_order_perm (l : list user_row) : Permutation (index_order l) l.
Proof.
  induction l as [|x l IH]; cbn [index_order fold_right]; [reflexivity|].
  fold (index_order l). rewrite index_insert_perm, IH. reflexivity.
Qed.

Lemma index_order_In (r : user_row) (l : list user_row) :
  In r (index_order l) <-> In r l.
Proof.
  split; apply Permutation_in;
    [apply index_order_perm|symmetry; apply index_order_perm].
Qed.

(** The order looks at the username and the id only. *)
Lemma index_order_map (g : user_row -> user_row) (l : list user_row) :
  (forall r, row_username (g r) = row_username r /\ row_id (g r) = row_id r) ->
  index_order (map g l) = map g (index_order l).
Proof.
  intros Hg.
  assert (Hleb : forall a b, index_leb (g a) (g b) = index_leb a b).
  { intros a b. unfold index_leb.
    destruct (Hg a) as [-> ->]. destruct (Hg b) as [-> ->]. reflexivity. }
  assert (Hins : forall r l0,
             index_insert (g r) (map g l0) = map g (index_insert r l0)).
  { intros r l0. induction l0 as [|x l0 IH]; cbn [map index_insert];
      [reflexivity|].
    rewrite Hleb. destruct (index_leb r x); cbn [map]; [reflexivity|].
    rewrite IH. reflexivity. }
  induction l as [|x l IH]; cbn [map index_order fold_right]; [reflexivity|].
  fold (index_order (map g l)). fold (index_order l).
  rewrite IH. apply Hins.
Qed.

(** [find] returns the one element that passes the test, wherever it is. *)
Lemma find_unique {A : Type} (f : A -> bool) (l : list A) (x : A) :
  (forall y, In y l -> f y = true -> y = x) ->
  In x l -> f x = true -> find f l = Some x.
Proof.
  induction l as [|y l IH]; cbn [In find]; intros Hu Hin Hx; [contradiction|].
  destruct (f y) eqn:Ey.
  - f_equal. apply Hu; [left; reflexivity|exact Ey].
  - destruct Hin as [->|Hin]; [rewrite Hx in Ey; discriminate Ey|].
    apply IH; [|exact Hin|exact Hx].
    intros z Hz. apply Hu. right. exact Hz.
Qed.

(** The list operation reads every row back as [{id, username}]. *)
Lemma mapM_records (l : list user_row) (w : world) :
  mapM id_and_username (map project_id_username l) w
  = (Ok (map user_record l), w).
Proof.
  induction l as [|r l IH]; [reflexivity|].
  cbn [map mapM]. unfold bind at 1. cbn. unfold bind at 1.
  rewrite IH. reflexivity.
Qed.

(** [create]: one INSERT on a connection of its own. *)
Lemma create_ready (u h : string) (w : world) (t : table) :
  db w = DbReady t ->
  let c := fresh_conn (trace w) in
  with_connection get_db_connection
    (fun conn => conn_execute conn (InsertUser u h) ;;; ret tt) w
  = if username_taken u t
    then (Raise IntegrityError,
          mk_world (DbReady t)
            (trace w ++ [EvConnect c; EvExecute c (InsertUser u h); EvRollback c])
            (log w))
    else (Ok tt,
          mk_world (DbReady (insert_row u h t))
            (trace w ++ [EvConnect c; EvExecute c (InsertUser u h); EvCommit c])
            (log w)).
Proof.
  intros H c. run. rewrite H. run.
  destruct (username_taken u t); tidy; reflexivity.
Qed.

Lemma create_no_table (u h : string) (w : world) :
  db w = DbNoTable ->
  let c := fresh_conn (trace w) in
  with_connection get_db_connection
    (fun conn => conn_execute conn (InsertUser u h) ;;; ret tt) w
  = (Raise OperationalError,
     mk_world DbNoTable
       (trace w ++ [EvConnect c; EvExecute c (InsertUser u h); EvRollback c])
       (log w)).
Proof. intros H c. run. rewrite H. run. tidy. reflexivity. Qed.

Lemma connect_unreachable {A : Type} (body : conn -> Py A) (w : world) :
  db w = DbUnreachable ->
  with_connection get_db_connection body w
  = (Raise OperationalError,
     mk_world DbUnreachable (trace w ++ [EvConnectFailed]) (log w)).
Proof. intros H. run. rewrite H. run. reflexivity. Qed.

(** [findByUsername]: one SELECT on a connection of its own. *)
Lemma lookup_ready (u : string) (w : world) (t : table) :
  db w = DbReady t ->
  let c := fresh_conn (trace w) in
  with_connection get_db_connection
    (fun conn => rs <- conn_execute conn (SelectByUsername u) ;; ret (fetchone rs)) w
  = (Ok (option_map project_all (find_user u t)),
     mk_world (DbReady t)
       (trace w ++ [EvConnect c; EvExecute c (SelectByUsername u); EvCommit c])
       (log w)).
Proof.
  intros H c. run. rewrite H. run. tidy.
  rewrite fetchone_filter. reflexivity.
Qed.

Lemma lookup_no_table (u : string) (w : world) :
  db w = DbNoTable ->
  let c := fresh_conn (trace w) in
  with_connection get_db_connection
    (fun conn => rs <- conn_execute conn (SelectByUsername u) ;; ret (fetchone rs)) w
  = (Raise OperationalError,
     mk_world DbNoTable
       (trace w ++ [EvConnect c; EvExecute c (SelectByUsername u); EvRollback c])
       (log w)).
Proof. intros H c. run. rewrite H. run. tidy. reflexivity. Qed.

(** [list]: one SELECT of the two columns on a connection of its own. *)
Lemma get_users_ready (w : world) (t : table) :
  db w = DbReady t ->
  let c := fresh_conn (trace w) in
  get_users w
  = (Ok (mk_response
           (PDict [("users", PList (map user_record (index_order (rows t))))])
           200),
     mk_world (DbReady t)
       (trace w ++ [EvConnect c; EvExecute c SelectIdUsername; EvCommit c])
       (log w)).
Proof.
  intros H c. unfold get_users. run. rewrite H. run.
  rewrite mapM_records. tidy. reflexivity.
Qed.

Lemma get_users_no_table (w : world) :
  db w = DbNoTable ->
  let c := fresh_conn (trace w) in
  get_users w
  = (Raise OperationalError,
     mk_world DbNoTable
       (trace w ++ [EvConnect c; EvExecute c SelectIdUsername; EvRollback c])
       (log w)).
Proof.
  intros H c. unfold get_users. run. rewrite H. run. tidy. reflexivity.
Qed.

Lemma get_users_unreachable (w : world) :
  db w = DbUnreachable ->
  get_users w
  = (Raise OperationalError,
     mk_world DbUnreachable (trace w ++ [EvConnectFailed]) (log w)).
Proof. intros H. unfold get_users. run. rewrite H. run. reflexivity. Qed.

End StoreFacts.

(** ** Validation *)

Module ValidationFacts.
Import PyStrFacts.

Lemma short_username (s : string) (password : pyval) :
  len (strip s) < 3 ->
  validate_username_password (PStr (strip s)) password = Some username_error.
Proof.
  intros H. unfold validate_username_password.
  cbn [isinstance_str negb len_strip_lt]. rewrite strip_idempotent.
  apply Z.ltb_lt in H. rewrite H, !orb_true_r. reflexivity.
Qed.

Lemma nonempty_of_len (s : string) (n : Z) : 0 < n -> n <= len s -> is_empty s = false.
Proof. rewrite is_empty_len. intros H0 H. apply Z.eqb_neq. lia. Qed.

Lemma good_username (s : string) (password : pyval) :
  3 <= len (strip s) ->
  validate_username_password (PStr (strip s)) password
  = if negb (truthy password) || negb (isinstance_str password)
       || len_lt password 8
    then Some password_error else None.
Proof.
  intros H. unfold validate_username_password.
  cbn [isinstance_str negb len_strip_lt truthy]. rewrite strip_idempotent.
  rewrite (nonempty_of_len (strip s) 3) by lia.
  replace (len (strip s) <? 3) with false by (symmetry; apply Z.ltb_ge; lia).
  reflexivity.
Qed.

Lemma short_password (s p : string) :
  3 <= len (strip s) -> len p < 8 ->
  validate_username_password (PStr (strip s)) (PStr p) = Some password_error.
Proof.
  intros Hs Hp. rewrite good_username by exact Hs.
  cbn [len_lt]. apply Z.ltb_lt in Hp. rewrite Hp, orb_true_r. reflexivity.
Qed.


(** What passing validation says about the two values. *)
Lemma validated (username : string) (password : pyval) :
  validate_username_password (PStr username) password = None ->
  is_empty username = false /\
  exists p, password = PStr p /\ is_empty p = false.
Proof.
  unfold validate_username_password. cbn [truthy isinstance_str negb].
  destruct (is_empty username); cbn [negb orb]; [discriminate|].
  destruct (len_strip_lt (PStr username) 3); cbn [orb]; [discriminate|].
  destruct password as [| | |p| |]; cbn [truthy isinstance_str negb orb];
    rewrite ?orb_true_r; try discriminate.
  destruct (is_empty p) eqn:Ep; cbn [negb orb]; [discriminate|].
  intros _. split; [reflexivity|]. exists p. split; [reflexivity|exact Ep].
Qed.

End ValidationFacts.

(** ** The handlers, path by path *)

Section HandlerFacts.
Context {B : Bcrypt}.
Import StoreFacts.

Lemma create_user_rejected (salt : bytes) (d : list (string * pyval))
  (s msg : string) (w : world) :
  dict_get d "username" (PStr "") = PStr s ->
  validate_username_password (PStr (strip s)) (dict_get d "password" (PStr ""))
    = Some msg ->
  create_user salt (json_request (PDict d)) w
  = (Ok (mk_response (PDict [("error", PStr msg)]) 400), w).
Proof.
  intros Hu Hv. unfold create_user. run. rewrite Hu. run. rewrite Hv.
  reflexivity.
Qed.

Lemma create_user_validated (salt : bytes) (d : list (string * pyval))
  (s p h : string) (w : world) :
  dict_get d "username" (PStr "") = PStr s ->
  dict_get d "password" (PStr "") = PStr p ->
  validate_username_password (PStr (strip s)) (PStr p) = None ->
  hashed_text (encode p) salt = Some h ->
  let c := fresh_conn (trace w) in
  let u := strip s in
  create_user salt (json_request (PDict d)) w
  = match db w with
    | DbReady t =>
        if username_taken u t then
          (Ok (mk_response (PDict [("error", PStr "Username already exists")]) 409),
           mk_world (DbReady t)
             (trace w ++ [EvConnect c; EvExecute c (InsertUser u h); EvRollback c])
             (log w ++ [mk_log INFO "Attempt to create duplicate user: %s" [PStr u]]))
        else
          (Ok (mk_response (PDict [("message", PStr "User created");
                                   ("username", PStr u)]) 201),
           mk_world (DbReady (insert_row u h t))
             (trace w ++ [EvConnect c; EvExecute c (InsertUser u h); EvCommit c])
             (log w ++ [mk_log INFO "Created user: %s" [PStr u]]))
    | DbNoTable =>
        (Ok (mk_response (PDict [("error", PStr "Internal server error")]) 500),
         mk_world DbNoTable
           (trace w ++ [EvConnect c; EvExecute c (InsertUser u h); EvRollback c])
           (log w ++ [mk_log ERROR "Unexpected error when creating user" []]))
    | DbUnreachable =>
        (Ok (mk_response (PDict [("error", PStr "Internal server error")]) 500),
         mk_world DbUnreachable (trace w ++ [EvConnectFailed])
           (log w ++ [mk_log ERROR "Unexpected error when creating user" []]))
    end.
Proof.
  intros Hu Hp Hv Hd c u. subst c u. unfold create_user.
  cbn [json_request is_json negb]. unfold read_credentials.
  unfold bind at 1. unfold bind at 1. unfold bind at 1. unfold bind at 1.
  unfold bind at 1.
  cbn [get_json json_request json_body py_get ret]. rewrite Hu, Hp.
  cbn [py_strip ret]. rewrite Hv.
  unfold hashed_text in Hd.
  destruct (hashpw (encode p) salt) as [hb|] eqn:Hb; [|discriminate Hd].
  unfold bind at 1. cbn [py_encode ret]. unfold bind at 1.
  unfold bcrypt_hashpw. rewrite Hb. cbn [ret]. unfold bind at 1.
  unfold py_decode. rewrite Hd. cbn [ret].
  unfold bind at 1. unfold try_except. unfold bind at 1.
  destruct (db w) as [| |t] eqn:E.
  - rewrite connect_unreachable by exact E. run. reflexivity.
  - rewrite create_no_table by exact E. run. reflexivity.
  - rewrite (create_ready _ _ _ t) by exact E.
    destruct (username_taken (strip s) t); run; reflexivity.
Qed.

Lemma login_missing (d : list (string * pyval)) (s : string) (w : world) :
  dict_get d "username" (PStr "") = PStr s ->
  is_empty (strip s) || negb (truthy (dict_get d "password" (PStr ""))) = true ->
  login (json_request (PDict d)) w
  = (Ok (mk_response (PDict [("error", PStr "Missing username or password")]) 400),
     w).
Proof.
  intros Hu Hm. unfold login. run. rewrite Hu. run.
  cbn [truthy]. rewrite negb_involutive, Hm. reflexivity.
Qed.

Lemma login_present (d : list (string * pyval)) (s : string) (w : world) :
  dict_get d "username" (PStr "") = PStr s ->
  is_empty (strip s) || negb (truthy (dict_get d "password" (PStr ""))) = false ->
  let c := fresh_conn (trace w) in
  let u := strip s in
  let failed := mk_log INFO "Failed login attempt for username: %s" [PStr u] in
  login (json_request (PDict d)) w
  = match db w with
    | DbUnreachable =>
        (Ok (mk_response (PDict [("error", PStr "Internal server error")]) 500),
         mk_world DbUnreachable (trace w ++ [EvConnectFailed])
           (log w ++ [mk_log ERROR "DB error during login" []]))
    | DbNoTable =>
        (Ok (mk_response (PDict [("error", PStr "Internal server error")]) 500),
         mk_world DbNoTable
           (trace w ++ [EvConnect c; EvExecute c (SelectByUsername u); EvRollback c])
           (log w ++ [mk_log ERROR "DB error during login" []]))
    | DbReady t =>
        let tr :=
          trace w ++ [EvConnect c; EvExecute c (SelectByUsername u); EvCommit c] in
        match find_user u t with
        | None =>
            (Ok invalid_credentials, mk_world (DbReady t) tr (log w ++ [failed]))
        | Some r =>
            match dict_get d "password" (PStr "") with
            | PStr p =>
                match checkpw (encode p) (encode (row_password r)) with
                | Some true =>
                    (Ok (mk_response
                           (PDict [("message", PStr "Login successful");
                                   ("user_id", PInt (row_id r))]) 200),
                     mk_world (DbReady t) tr
                       (log w ++
                        [mk_log INFO "Successful login for user id=%s username=%s"
                           [PInt (row_id r); PStr (row_username r)]]))
                | Some false =>
                    (Ok invalid_credentials,
                     mk_world (DbReady t) tr (log w ++ [failed]))
                | None => (Raise ValueError, mk_world (DbReady t) tr (log w))
                end
            | _ => (Raise AttributeError, mk_world (DbReady t) tr (log w))
            end
        end
    end.
Proof.
  intros Hu Hm c u failed. subst c u failed. unfold login.
  cbn [json_request is_json negb]. unfold read_credentials.
  do 5 (unfold bind at 1).
  cbn [get_json json_request json_body py_get ret]. rewrite Hu.
  cbn [py_strip ret truthy]. rewrite negb_involutive, Hm.
  unfold bind at 1. unfold try_except. unfold bind at 1.
  destruct (db w) as [| |t] eqn:E.
  - rewrite connect_unreachable by exact E. run. reflexivity.
  - rewrite lookup_no_table by exact E. run. reflexivity.
  - rewrite (lookup_ready _ _ t) by exact E. cbn [ret].
    destruct (find_user (strip s) t) as [r|]; cbn [option_map].
    + destruct (dict_get d "password" (PStr "")) as [| | |p| |];
        try (run; reflexivity).
      run. cbn. destruct (checkpw (encode p) (encode (row_password r))) as [[]|];
        reflexivity.
    + run. reflexivity.
Qed.

(** When the hash step raises, the exception leaves [create_user] before
    the store is touched. *)
Lemma create_user_unhashed (salt : bytes) (d : list (string * pyval))
  (s p : string) (w : world) :
  dict_get d "username" (PStr "") = PStr s ->
  dict_get d "password" (PStr "") = PStr p ->
  validate_username_password (PStr (strip s)) (PStr p) = None ->
  hashed_text (encode p) salt = None ->
  create_user salt (json_request (PDict d)) w
  = (Raise (match hashpw (encode p) salt with
            | Some _ => UnicodeDecodeError
            | None => ValueError
            end), w).
Proof.
  intros Hu Hp Hv Hd. unfold create_user. run. rewrite Hu, Hp. run.
  rewrite Hv. run. unfold hashed_text in Hd.
  destruct (hashpw (encode p) salt) as [hb|]; [|reflexivity].
  rewrite Hd. reflexivity.
Qed.

(** A hash that [hashpw] returns is stored as text that encodes back to
    it. *)
Lemma hashed_text_of_hash (L : BcryptLaws B) (p salt hb : bytes) :
  hashpw p salt = Some hb ->
  exists h, hashed_text p salt = Some h /\ encode h = hb.
Proof.
  intros H. unfold hashed_text. rewrite H.
  apply Utf8Facts.decode_ascii. apply (hashpw_ascii B L p salt hb H).
Qed.

Lemma hash_of_hashed_text (L : BcryptLaws B) (p salt : bytes) (h : string) :
  hashed_text p salt = Some h -> hashpw p salt = Some (encode h).
Proof.
  intros H. destruct (hashpw p salt) as [hb|] eqn:Hb.
  - destruct (hashed_text_of_hash L p salt hb Hb) as (h' & H' & <-).
    rewrite H in H'. injection H' as <-. reflexivity.
  - unfold hashed_text in H. rewrite Hb in H. discriminate H.
Qed.

End HandlerFacts.

(** ** The demonstration instance satisfies the laws *)

Module DemoFacts.
Import Demo Utf8Facts.

Lemma spell_ascii (b : byte) : forallb is_ascii (spell b) = true.
Proof. destruct b; reflexivity. Qed.

Lemma spelled_ascii (p : bytes) : forallb is_ascii (flat_map spell p) = true.
Proof.
  induction p as [|b p IH]; [reflexivity|].
  cbn [flat_map]. rewrite forallb_app, spell_ascii, IH. reflexivity.
Qed.

Lemma demo_bcrypt_laws : BcryptLaws demo_bcrypt.
Proof.
  split; cbn [hashpw checkpw demo_bcrypt]; unfold demo_hashpw, demo_checkpw;
    intros p _ h [= <-].
  - apply spelled_ascii.
  - rewrite bytes_eqb_refl. reflexivity.
Qed.


End DemoFacts.

(** ** The service *)

Section Service.
Context {B : Bcrypt}.
Import PyStrFacts Utf8Facts StoreFacts ValidationFacts.

(** C10. [GET /health] answers 200 with status "healthy" and the file name
    of the database path, in every world and without touching the world:
    the answer is the same whatever the condition of the database.  The
    file name is the part of the path after its last slash. *)
Theorem health_check_always_healthy (env : environ) (w w' : world) :
  flask_dispatch "/health" "GET" (health_check env) w
  = ((200, Json (PDict [("status", PStr "healthy");
                        ("database", PStr (basename (DATABASE_PATH env)))])),
     w)
  /\ fst (flask_dispatch "/health" "GET" (health_check env) w')
     = fst (flask_dispatch "/health" "GET" (health_check env) w)
  /\ has_slash (basename (DATABASE_PATH env)) = false
  /\ is_suffix (basename (DATABASE_PATH env)) (DATABASE_PATH env) = true.
Proof.
  repeat split.
  - apply has_slash_basename.
  - apply is_suffix_basename.
Qed.

Lemma user_record_ignores_password (f : string -> string) (l : list user_row) :
  map user_record
    (map (fun r => mk_row (row_id r) (row_username r) (f (row_password r))) l)
  = map user_record l.
Proof. rewrite map_map. apply map_ext. intros r. reflexivity. Qed.

(** C6. Whatever the state of the store, every record that [GET /users]
    returns has exactly the fields id and username, so no password field;
    and the answer does not depend on the password column at all:
    rewriting every stored hash leaves it unchanged. *)
Theorem get_users_hides_passwords (w : world) (f : string -> string) :
  Forall (fun rec => record_keys rec = ["id"; "username"])
         (response_users (fst (get_users w)))
  /\ fst (flask_dispatch "/users" "GET" get_users (map_passwords f w))
     = fst (flask_dispatch "/users" "GET" get_users w).
Proof.
  unfold flask_dispatch, map_passwords.
  destruct (db w) as [| |t] eqn:E.
  - rewrite get_users_unreachable by exact E. split; [constructor|reflexivity].
  - rewrite get_users_no_table by exact E. split; [constructor|reflexivity].
  - rewrite (get_users_ready w t) by exact E.
    erewrite (get_users_ready (mk_world _ _ _)) by reflexivity.
    cbn [fst snd rows status body response_users assoc String.eqb].
    split.
    + cbn. apply Forall_forall. intros rec Hin.
      apply in_map_iff in Hin. destruct Hin as (r & <- & _). reflexivity.
    + rewrite index_order_map by (intros r; split; reflexivity).
      rewrite user_record_ignores_password. reflexivity.
Qed.

(** C3. A registration whose username has fewer than 3 characters once
    trimmed is answered 400 with the username message, whatever the
    password field holds, and the world is left as it was: nothing is
    written, no connection is opened. *)
Theorem register_short_username (salt : bytes) (d : list (string * pyval))
  (s : string) (w : world) :
  dict_get d "username" (PStr "") = PStr s ->
  len (strip s) < 3 ->
  create_user salt (json_request (PDict d)) w
  = (Ok (mk_response
           (PDict [("error", PStr "Username must be at least 3 characters.")])
           400),
     w).
Proof.
  intros Hu Hs. apply (create_user_rejected salt d s); [exact Hu|].
  apply short_username. exact Hs.
Qed.

(** C4. A registration with a valid username and a password of fewer than
    8 characters, counted on the string as sent, is answered 400 with the
    password message, and the world is left as it was. *)
Theorem register_short_password (salt : bytes) (d : list (string * pyval))
  (s p : string) (w : world) :
  dict_get d "username" (PStr "") = PStr s ->
  dict_get d "password" (PStr "") = PStr p ->
  3 <= len (strip s) ->
  len p < 8 ->
  create_user salt (json_request (PDict d)) w
  = (Ok (mk_response
           (PDict [("error", PStr "Password must be at least 8 characters.")])
           400),
     w).
Proof.
  intros Hu Hp Hs Hl. apply (create_user_rejected salt d s); [exact Hu|].
  rewrite Hp. apply short_password; assumption.
Qed.

Lemma app_cons_neq {A : Type} (l l' : list A) (x : A) : l ++ x :: l' <> l.
Proof.
  intros H. apply (f_equal (@length A)) in H.
  rewrite length_app in H. cbn [length] in H. lia.
Qed.

(** C7. A login whose trimmed username is empty, or whose password is
    empty, is answered 400 "Missing username or password" and leaves the
    world as it was.  Presence is the whole test: any other request, however
    short its username and password, is not answered 400 and goes to the
    store. *)
Theorem login_presence_only (d : list (string * pyval)) (s : string)
  (w : world) :
  dict_get d "username" (PStr "") = PStr s ->
  if is_empty (strip s) || negb (truthy (dict_get d "password" (PStr "")))
  then login (json_request (PDict d)) w
       = (Ok (mk_response
                (PDict [("error", PStr "Missing username or password")]) 400),
          w)
  else fst (fst (flask_dispatch "/login" "POST" (login (json_request (PDict d))) w)) <> 400
       /\ trace (snd (login (json_request (PDict d)) w)) <> trace w.
Proof.
  intros Hu.
  destruct (is_empty (strip s)
            || negb (truthy (dict_get d "password" (PStr "")))) eqn:E.
  - apply (login_missing d s); assumption.
  - unfold flask_dispatch. rewrite (login_present d s w Hu E).
    destruct (db w) as [| |t]; cbn [fst snd status trace];
      try (split; [discriminate|apply app_cons_neq]).
    destruct (find_user (strip s) t) as [r|];
      [|split; [discriminate|apply app_cons_neq]].
    destruct (dict_get d "password" (PStr "")) as [| | |p| |];
      try (split; [discriminate|apply app_cons_neq]).
    destruct (checkpw (encode p) (encode (row_password r))) as [[]|];
      split; try discriminate; apply app_cons_neq.
Qed.

(** C9. When the username field of a JSON registration holds anything but
    a string, [.strip()] raises [AttributeError] before validation is
    called: the handler has no answer of its own, the world is untouched,
    and the client gets the generic 500 page; validation, had it been
    reached, would have given the 400 username message for that value. *)
Theorem register_nonstring_username (salt : bytes)
  (d : list (string * pyval)) (w : world) :
  isinstance_str (dict_get d "username" (PStr "")) = false ->
  create_user salt (json_request (PDict d)) w = (Raise AttributeError, w)
  /\ fst (flask_dispatch "/users" "POST" (create_user salt (json_request (PDict d))) w)
     = (500, ErrorPage)
  /\ validate_username_password (dict_get d "username" (PStr ""))
       (dict_get d "password" (PStr ""))
     = Some "Username must be at least 3 characters.".
Proof.
  intros H.
  assert (Hc : create_user salt (json_request (PDict d)) w
               = (Raise AttributeError, w)).
  { unfold create_user. run.
    destruct (dict_get d "username" (PStr "")); try reflexivity; discriminate H. }
  split; [exact Hc|]. split.
  - unfold flask_dispatch. rewrite Hc. reflexivity.
  - unfold validate_username_password. rewrite H.
    cbn [negb]. rewrite orb_true_r. reflexivity.
Qed.

Lemma find_user_record (u : string) (l : list user_row) :
  find (record_of u) (map user_record l)
  = option_map user_record (find (fun r => String.eqb (row_username r) u) l).
Proof.
  induction l as [|r l IH]; [reflexivity|].
  cbn [map find]. rewrite IH.
  unfold record_of at 1, user_record at 1.
  cbn [assoc String.eqb Ascii.eqb Bool.eqb].
  destruct (String.eqb (row_username r) u); reflexivity.
Qed.

Lemma find_user_inserted (u h : string) (t : table) :
  username_taken u t = false ->
  find_user u (insert_row u h t) = Some (mk_row (next_id t) u h).
Proof.
  intros H. unfold find_user, insert_row. cbn [rows].
  apply find_app_fresh; [exact H|]. apply String.eqb_refl.
Qed.

Lemma find_user_index_inserted (u h : string) (t : table) :
  username_taken u t = false ->
  find (fun r => String.eqb (row_username r) u)
       (index_order (rows (insert_row u h t)))
  = Some (mk_row (next_id t) u h).
Proof.
  intros H. apply find_unique.
  - intros y Hy Ey. apply (proj1 (index_order_In _ _)) in Hy.
    cbn [insert_row rows] in Hy.
    apply in_app_or in Hy. destruct Hy as [Hy|[<-|[]]]; [|reflexivity].
    unfold username_taken in H.
    assert (X : existsb (fun r => String.eqb (row_username r) u) (rows t) = true).
    { apply existsb_exists. exists y. split; assumption. }
    rewrite X in H. discriminate H.
  - apply (proj2 (index_order_In _ _)). cbn [insert_row rows]. apply in_or_app.
    right. left. reflexivity.
  - apply String.eqb_refl.
Qed.

(** C1. If registering [u] with [p] is answered 201, then logging in with
    the same [u] and [p] is answered 200 "Login successful", and its
    [user_id] is the id that the list of users then shows for the stored
    (trimmed) username. *)
Theorem register_then_login (L : BcryptLaws B) (salt : bytes) (u p : string)
  (w w1 : world) (r : response) :
  create_user salt (post_credentials u p) w = (Ok r, w1) ->
  status r = 201 ->
  exists (uid : Z) (w2 w3 : world) (us : list pyval),
    login (post_credentials u p) w1
    = (Ok (mk_response (PDict [("message", PStr "Login successful");
                               ("user_id", PInt uid)]) 200), w2)
    /\ get_users w2
       = (Ok (mk_response (PDict [("users", PList us)]) 200), w3)
    /\ listed_id (strip u) us = Some (PInt uid).
Proof.
  intros Hc Hs. unfold post_credentials in *.
  set (d := [("username", PStr u); ("password", PStr p)]) in *.
  assert (Hu : dict_get d "username" (PStr "") = PStr u) by reflexivity.
  assert (Hp : dict_get d "password" (PStr "") = PStr p) by reflexivity.
  destruct (validate_username_password (PStr (strip u)) (PStr p)) as [msg|] eqn:V.
  { rewrite (create_user_rejected salt d u msg w Hu) in Hc
      by (rewrite Hp; exact V).
    inversion Hc; subst. discriminate Hs. }
  destruct (hashed_text (encode p) salt) as [h|] eqn:Hd;
    [|rewrite (create_user_unhashed salt d u p w Hu Hp V Hd) in Hc;
      discriminate Hc].
  pose proof (hash_of_hashed_text L _ _ _ Hd) as Hb.
  rewrite (create_user_validated salt d u p h w Hu Hp V Hd) in Hc.
  destruct (db w) as [| |t] eqn:E;
    try (inversion Hc; subst; discriminate Hs).
  destruct (username_taken (strip u) t) eqn:T;
    inversion Hc; subst; try discriminate Hs. clear Hc Hs.
  destruct (validated _ _ V) as (Hne & p' & Hp' & Hpne).
  injection Hp' as <-.
  assert (Hm : is_empty (strip u)
               || negb (truthy (dict_get d "password" (PStr ""))) = false).
  { rewrite Hp. cbn [truthy]. rewrite Hne, Hpne. reflexivity. }
  rewrite (login_present d u _ Hu Hm). cbn [db trace log].
  rewrite find_user_inserted by exact T. rewrite Hp.
  cbn [row_password row_id row_username].
  rewrite (checkpw_hashpw B L _ _ _ Hb).
  eexists. eexists. eexists. eexists. split; [reflexivity|].
  erewrite (get_users_ready (mk_world _ _ _)) by reflexivity. cbn [trace log].
  split; [reflexivity|].
  unfold listed_id. rewrite find_user_record.
  rewrite find_user_index_inserted by exact T. reflexivity.
Qed.



End Service.

(** ** Connections *)

Module ConnectionFacts.
Import StoreFacts.

Lemma open_conns_from_app (acc : list conn) (tr tr' : list db_event) :
  open_conns_from acc (tr ++ tr')
  = open_conns_from (open_conns_from acc tr) tr'.
Proof.
  revert acc. induction tr as [|e tr IH]; intros acc; [reflexivity|].
  destruct e; cbn [app open_conns_from]; apply IH.
Qed.

(** The list operation leaves the connection it opened among the open
    ones, on the normal path and on the error path alike. *)
Lemma get_users_leaves_open (w : world) :
  db w <> DbUnreachable ->
  open_conns (snd (get_users w)) = open_conns w ++ [fresh_conn (trace w)].
Proof.
  intros H. unfold open_conns.
  destruct (db w) as [| |t] eqn:E; [contradiction| |].
  - rewrite get_users_no_table by exact E. cbn [snd trace].
    rewrite open_conns_from_app. reflexivity.
  - rewrite (get_users_ready w t) by exact E. cbn [snd trace].
    rewrite open_conns_from_app. reflexivity.
Qed.

End ConnectionFacts.

(** C8. Each store operation opens one connection of its own, and none
    closes it.  On the start-up world the list operation leaves the trace
    connect, execute, commit and connection 0 open; on a database without
    the table (the error path) it leaves connect, execute, rollback and
    connection 0 open; create and lookup do the same, so that after a
    registration and a login two connections are open.  Only [close]
    would have removed one. *)
Theorem connections_left_open :
  trace (snd (get_users Demo.fresh_world))
  = [EvConnect 0%nat; EvExecute 0%nat SelectIdUsername; EvCommit 0%nat]
  /\ open_conns (snd (get_users Demo.fresh_world)) = [0%nat]
  /\ trace (snd (get_users (mk_world DbNoTable [] [])))
     = [EvConnect 0%nat; EvExecute 0%nat SelectIdUsername; EvRollback 0%nat]
  /\ open_conns (snd (get_users (mk_world DbNoTable [] []))) = [0%nat]
  /\ open_conns Demo.alice_world = [0%nat]
  /\ open_conns
       (snd (login (B := Demo.demo_bcrypt)
               (post_credentials "alice123" "correct-horse") Demo.alice_world))
     = [0%nat; 1%nat]
  /\ open_conns (snd (conn_close 0%nat (snd (get_users Demo.fresh_world)))) = [].
Proof. repeat split; vm_compute; reflexivity. Qed.

(** C5. A password that validation accepts need not be one that bcrypt
    hashes.  With a bcrypt that refuses more than 72 bytes, registering
    [user73] with a password of 73 characters on the start-up world passes
    validation, raises [ValueError] at [bcrypt.hashpw], which stands
    outside the [try], and is answered with the 500 page; no row is
    written and no connection is opened.  The first registration of a
    valid username and password is then not answered 201. *)
Theorem register_valid_password_refused :
  len Demo.long_password = 73
  /\ validate_username_password (PStr "user73") (PStr Demo.long_password) = None
  /\ create_user (B := Demo.bcrypt5) []
       (post_credentials "user73" Demo.long_password) Demo.fresh_world
     = (Raise ValueError, Demo.fresh_world)
  /\ fst (flask_dispatch "/users" "POST"
            (create_user (B := Demo.bcrypt5) []
               (post_credentials "user73" Demo.long_password))
            Demo.fresh_world)
     = (500, ErrorPage)
  /\ count_rows
       (snd (flask_dispatch "/users" "POST"
               (create_user (B := Demo.bcrypt5) []
                  (post_credentials "user73" Demo.long_password))
               Demo.fresh_world))
     = 0.
Proof. repeat split; vm_compute; reflexivity. Qed.

(** C2. The two failures of [login] can be told apart.  [alice123] is
    registered; [mallory] is not.  With a bcrypt that refuses more than 72
    bytes and a password of 73 characters, the login of [mallory] is
    answered 401 "Invalid credentials" and the login of [alice123] is
    answered with the 500 page: [bcrypt.checkpw] raises [ValueError]
    outside any [try].  With a password that is the JSON number 5 the same
    happens under any bcrypt, [AttributeError] being raised at
    [password.encode]. *)
Theorem login_failures_differ :
  snd (create_user (B := Demo.bcrypt5) []
         (post_credentials "alice123" "correct-horse") Demo.fresh_world)
  = Demo.alice_world
  /\ fst (flask_dispatch "/login" "POST"
            (login (B := Demo.bcrypt5)
               (post_credentials "mallory" Demo.long_password))
            Demo.alice_world)
     = (401, Json (PDict [("message", PStr "Invalid credentials")]))
  /\ fst (flask_dispatch "/login" "POST"
            (login (B := Demo.bcrypt5)
               (post_credentials "alice123" Demo.long_password))
            Demo.alice_world)
     = (500, ErrorPage)
  /\ fst (flask_dispatch "/login" "POST"
            (login (B := Demo.demo_bcrypt)
               (json_request (PDict [("username", PStr "mallory");
                                     ("password", PInt 5)])))
            Demo.alice_world)
     = (401, Json (PDict [("message", PStr "Invalid credentials")]))
  /\ fst (flask_dispatch "/login" "POST"
            (login (B := Demo.demo_bcrypt)
               (json_request (PDict [("username", PStr "alice123");
                                     ("password", PInt 5)])))
            Demo.alice_world)
     = (500, ErrorPage).
Proof. repeat split; vm_compute; reflexivity. Qed.

(** ** The statements at concrete requests *)

Module Witnesses.
Import Demo DemoFacts.

Lemma register_then_login_witness :
  exists (uid : Z) (w2 w3 : world) (us : list pyval),
    login (post_credentials "alice123" "correct-horse") alice_world
    = (Ok (mk_response (PDict [("message", PStr "Login successful");
                               ("user_id", PInt uid)]) 200), w2)
    /\ get_users w2
       = (Ok (mk_response (PDict [("users", PList us)]) 200), w3)
    /\ listed_id (strip "alice123") us = Some (PInt uid).
Proof.
  apply (register_then_login demo_bcrypt_laws [] "alice123" "correct-horse"
           fresh_world alice_world
           (mk_response (PDict [("message", PStr "User created");
                                ("username", PStr "alice123")]) 201)).
  - vm_compute. reflexivity.
  - reflexivity.
Defined.


Lemma register_short_username_witness :
  create_user [] (json_request (PDict [("username", PStr "  ab  ");
                                       ("password", PStr "x")])) fresh_world
  = (Ok (mk_response
           (PDict [("error", PStr "Username must be at least 3 characters.")])
           400),
     fresh_world).
Proof.
  apply (register_short_username [] _ "  ab  " fresh_world).
  - reflexivity.
  - vm_compute. reflexivity.
Defined.

Lemma register_short_password_witness :
  create_user [] (post_credentials "alice123" "1234567") fresh_world
  = (Ok (mk_response
           (PDict [("error", PStr "Password must be at least 8 characters.")])
           400),
     fresh_world).
Proof.
  apply (register_short_password [] _ "alice123" "1234567" fresh_world).
  - reflexivity.
  - reflexivity.
  - vm_compute. discriminate.
  - vm_compute. reflexivity.
Defined.


Lemma login_presence_only_witness :
  login (json_request (PDict [("username", PStr "alice123");
                              ("password", PStr "")])) alice_world
  = (Ok (mk_response
           (PDict [("error", PStr "Missing username or password")]) 400),
     alice_world)
  /\ login (json_request (PDict [("username", PStr "   ");
                                 ("password", PStr "correct-horse")]))
       alice_world
     = (Ok (mk_response
              (PDict [("error", PStr "Missing username or password")]) 400),
        alice_world)
  /\ (fst (fst (flask_dispatch "/login" "POST"
                  (login (json_request (PDict [("username", PStr "al");
                                               ("password", PStr "x")])))
                  alice_world)) <> 400
      /\ trace (snd (login (json_request (PDict [("username", PStr "al");
                                                 ("password", PStr "x")]))
                       alice_world))
         <> trace alice_world).
Proof.
  split; [|split].
  - exact (login_presence_only
             [("username", PStr "alice123"); ("password", PStr "")]
             "alice123" alice_world eq_refl).
  - exact (login_presence_only
             [("username", PStr "   "); ("password", PStr "correct-horse")]
             "   " alice_world eq_refl).
  - exact (login_presence_only
             [("username", PStr "al"); ("password", PStr "x")]
             "al" alice_world eq_refl).
Defined.

Lemma register_nonstring_username_witness :
  let d := [("username", PInt 5); ("password", PStr "correct-horse")] in
  create_user [] (json_request (PDict d)) fresh_world
  = (Raise AttributeError, fresh_world)
  /\ fst (flask_dispatch "/users" "POST" (create_user [] (json_request (PDict d))) fresh_world)
     = (500, ErrorPage)
  /\ validate_username_password (dict_get d "username" (PStr ""))
       (dict_get d "password" (PStr ""))
     = Some "Username must be at least 3 characters.".
Proof.
  intros d. apply (register_nonstring_username [] d fresh_world). reflexivity.
Defined.

End Witnesses.

(** ** The scenario of the specification, and two remarks *)

Module Scenario.
Import Demo.

Example register_alice :
  fst (flask_dispatch "/users" "POST"
         (create_user [] (post_credentials "alice123" "correct-horse"))
         fresh_world)
  = (201, Json (PDict [("message", PStr "User created");
                       ("username", PStr "alice123")])).
Proof. vm_compute. reflexivity. Qed.

Example login_alice_wrong :
  fst (flask_dispatch "/login" "POST" (login (post_credentials "alice123" "wrong-pass"))
         alice_world)
  = (401, Json (PDict [("message", PStr "Invalid credentials")])).
Proof. vm_compute. reflexivity. Qed.

Example login_alice_right :
  fst (flask_dispatch "/login" "POST" (login (post_credentials "alice123" "correct-horse"))
         alice_world)
  = (200, Json (PDict [("message", PStr "Login successful");
                       ("user_id", PInt 1)])).
Proof. vm_compute. reflexivity. Qed.

(** The password is counted untrimmed: eight spaces are a valid password. *)
Example password_of_spaces :
  validate_username_password (PStr "alice123") (PStr "        ") = None.
Proof. vm_compute. reflexivity. Qed.

(** A password that is a number passes the presence test of [login]; the
    answer then depends on whether the username is in the table. *)
Example login_number_password :
  fst (flask_dispatch "/login" "POST"
         (login (json_request (PDict [("username", PStr "mallory");
                                      ("password", PInt 5)])))
         alice_world)
  = (401, Json (PDict [("message", PStr "Invalid credentials")]))
  /\ fst (flask_dispatch "/login" "POST"
            (login (json_request (PDict [("username", PStr "alice123");
                                         ("password", PInt 5)])))
            alice_world)
     = (500, ErrorPage).
Proof. split; vm_compute; reflexivity. Qed.

(** [init_db] creates the table when it is missing and keeps it otherwise. *)
Example init_db_creates :
  db (snd (init_db (mk_world DbNoTable [] []))) = DbReady empty_table
  /\ db (snd (init_db alice_world)) = db alice_world.
Proof. split; vm_compute; reflexivity. Qed.

End Scenario.

(** * Further properties of the program *)

(** ** Every request, case by case *)

Section Cases.
Context {B : Bcrypt}.
Import PyStrFacts Utf8Facts StoreFacts ValidationFacts.

(** Passing validation, in lengths. *)
Lemma validated_lengths (s p : string) :
  validate_username_password (PStr (strip s)) (PStr p) = None ->
  3 <= len (strip s) /\ 8 <= len p.
Proof.
  unfold validate_username_password.
  cbn [truthy isinstance_str negb orb len_strip_lt len_lt].
  rewrite strip_idempotent.
  destruct (len (strip s) <? 3) eqn:Es; [rewrite orb_true_r; discriminate|].
  destruct (len p <? 8) eqn:Ep.
  - rewrite !orb_true_r. destruct (is_empty (strip s)); discriminate.
  - intros _. apply Z.ltb_ge in Es, Ep. split; assumption.
Qed.

(** Where [create_user] stops before the store, and what it has in hand
    when it goes on. *)
Lemma create_user_cases (salt : bytes) (req : request) (w : world) :
  (snd (create_user salt req w) = w
   /\ forall resp, fst (create_user salt req w) = Ok resp -> status resp = 400)
  \/ exists d s p h,
       req = json_request (PDict d)
       /\ dict_get d "username" (PStr "") = PStr s
       /\ dict_get d "password" (PStr "") = PStr p
       /\ validate_username_password (PStr (strip s)) (PStr p) = None
       /\ hashed_text (encode p) salt = Some h.
Proof.
  destruct req as [[] [v|]]; try (left; split; [reflexivity|]).
  - assert (Hd : (exists d, v = PDict d) \/ 
                 create_user salt (mk_request true (Some v)) w
                 = (Raise AttributeError, w)).
    { destruct v; try (right; reflexivity). left. eexists. reflexivity. }
    destruct Hd as [[d ->]|Hr];
      [|left; rewrite Hr; split; [reflexivity|discriminate]].
    destruct (dict_get d "username" (PStr "")) as [| | |s| |] eqn:Hu;
      try (left; unfold create_user; run; rewrite Hu; split;
           [reflexivity|discriminate]).
    destruct (validate_username_password (PStr (strip s))
                (dict_get d "password" (PStr ""))) as [msg|] eqn:V.
    { left. change (mk_request true (Some (PDict d)))
        with (json_request (PDict d)).
      rewrite (create_user_rejected salt d s msg w Hu V).
      split; [reflexivity|]. intros resp [= <-]. reflexivity. }
    destruct (validated _ _ V) as (_ & p & Hp & _).
    rewrite Hp in V.
    destruct (hashed_text (encode p) salt) as [h|] eqn:Hh.
    + right. exists d, s, p, h. repeat split; assumption.
    + left. change (mk_request true (Some (PDict d)))
        with (json_request (PDict d)).
      rewrite (create_user_unhashed salt d s p w Hu Hp V Hh).
      split; [reflexivity|discriminate].
  - discriminate.
  - intros resp [= <-]. reflexivity.
  - intros resp [= <-]. reflexivity.
Qed.

(** The same for [login]. *)
Lemma login_cases (req : request) (w : world) :
  (snd (login req w) = w
   /\ forall resp, fst (login req w) = Ok resp -> status resp = 400)
  \/ exists d s,
       req = json_request (PDict d)
       /\ dict_get d "username" (PStr "") = PStr s
       /\ is_empty (strip s)
          || negb (truthy (dict_get d "password" (PStr ""))) = false.
Proof.
  destruct req as [[] [v|]]; try (left; split; [reflexivity|]).
  - assert (Hd : (exists d, v = PDict d) \/ 
                 login (mk_request true (Some v)) w = (Raise AttributeError, w)).
    { destruct v; try (right; reflexivity). left. eexists. reflexivity. }
    destruct Hd as [[d ->]|Hr];
      [|left; rewrite Hr; split; [reflexivity|discriminate]].
    destruct (dict_get d "username" (PStr "")) as [| | |s| |] eqn:Hu;
      try (left; unfold login; run; rewrite Hu; split;
           [reflexivity|discriminate]).
    destruct (is_empty (strip s)
              || negb (truthy (dict_get d "password" (PStr "")))) eqn:E.
    + left. change (mk_request true (Some (PDict d)))
        with (json_request (PDict d)).
      rewrite (login_missing d s w Hu E).
      split; [reflexivity|]. intros resp [= <-]. reflexivity.
    + right. exists d, s. repeat split; assumption.
  - discriminate.
  - intros resp [= <-]. reflexivity.
  - intros resp [= <-]. reflexivity.
Qed.

End Cases.

(** ** Validation, in full *)

Module ValidationMore.
Import PyStrFacts ValidationFacts.

(** X1. [validate_username_password] accepts exactly the pairs of a string
    username of three characters or more once trimmed and a string
    password of eight characters or more; and it gives the username
    message exactly when the username is not such a string, whatever the
    password. *)
Theorem validate_characterised (username password : pyval) :
  (validate_username_password username password = None
   <-> exists s p, username = PStr s /\ password = PStr p
                   /\ 3 <= len (strip s) /\ 8 <= len p)
  /\ (validate_username_password username password = Some username_error
      <-> ~ exists s, username = PStr s /\ 3 <= len (strip s)).
Proof.
  assert (Hne : forall s n, 0 < n -> (len s <? n) = false -> is_empty s = false).
  { intros s n Hn H. apply Z.ltb_ge in H. apply (nonempty_of_len s n); lia. }
  assert (Hst : forall s, (len (strip s) <? 3) = false -> is_empty s = false).
  { intros [|c s] H; [discriminate H|reflexivity]. }
  unfold validate_username_password.
  destruct username as [| | |s| |];
    cbn [truthy isinstance_str negb orb len_strip_lt];
    rewrite ?orb_true_r;
    try (split; [split; [discriminate|intros (s & p & [=] & _)]
                |split; [intros _ (s & [=] & _)|reflexivity]]).
  destruct (len (strip s) <? 3) eqn:Es.
  - rewrite orb_true_r. apply Z.ltb_lt in Es. split.
    + split; [discriminate|]. intros (s' & p & [= <-] & _ & H & _). lia.
    + split; [|reflexivity]. intros _ (s' & [= <-] & H). lia.
  - rewrite (Hst s Es). cbn [negb orb].
    pose proof Es as Es'. apply Z.ltb_ge in Es'.
    assert (Hu : ~ ~ exists s0, PStr s = PStr s0 /\ 3 <= len (strip s0)).
    { intros H. apply H. exists s. split; [reflexivity|exact Es']. }
    destruct password as [| | |p| |];
      cbn [truthy isinstance_str negb orb len_lt];
      rewrite ?orb_true_r;
      try (split; [split; [discriminate|intros (s' & p & _ & [=] & _)]
                  |split; [discriminate|intros H; destruct (Hu H)]]).
    destruct (len p <? 8) eqn:Ep.
    + rewrite orb_true_r. apply Z.ltb_lt in Ep. split.
      * split; [discriminate|]. intros (s' & p' & _ & [= <-] & _ & H). lia.
      * split; [discriminate|intros H; destruct (Hu H)].
    + rewrite (Hne p 8 ltac:(lia) Ep). cbn [negb orb]. apply Z.ltb_ge in Ep.
      split.
      * split; [intros _; exists s, p; repeat split; assumption|reflexivity].
      * split; [discriminate|intros H; destruct (Hu H)].
Qed.

End ValidationMore.

(** ** Requests and what they may do to the world *)

Section Requests.
Context {B : Bcrypt}.
Import PyStrFacts Utf8Facts StoreFacts ValidationFacts.

(** X2. A registration with a valid username whose password field holds
    anything but a string is answered 400 with the password message and
    leaves the world as it was: unlike the username, the password reaches
    validation untouched. *)
Theorem register_nonstring_password (salt : bytes) (d : list (string * pyval))
  (s : string) (w : world) :
  dict_get d "username" (PStr "") = PStr s ->
  3 <= len (strip s) ->
  isinstance_str (dict_get d "password" (PStr "")) = false ->
  create_user salt (json_request (PDict d)) w
  = (Ok (mk_response
           (PDict [("error", PStr "Password must be at least 8 characters.")])
           400),
     w).
Proof.
  intros Hu Hs Hp. apply (create_user_rejected salt d s); [exact Hu|].
  rewrite good_username by exact Hs. rewrite Hp.
  cbn [negb]. rewrite orb_true_r. reflexivity.
Qed.

(** X3. [create_user] goes to the store only for a JSON object whose
    username is a string of three characters or more once trimmed and
    whose password is a string of eight characters or more: whenever the
    connection trace has changed, the request was of that form. *)
Theorem register_store_after_validation (salt : bytes) (req : request)
  (w : world) :
  trace (snd (create_user salt req w)) <> trace w ->
  exists d s p,
    is_json req = true /\ json_body req = Some (PDict d)
    /\ dict_get d "username" (PStr "") = PStr s
    /\ dict_get d "password" (PStr "") = PStr p
    /\ 3 <= len (strip s) /\ 8 <= len p.
Proof.
  intros H.
  destruct (create_user_cases salt req w) as [[Hw _]|(d & s & p & h & -> & Hu & Hp & V & _)].
  - rewrite Hw in H. contradiction.
  - exists d, s, p. repeat split; try assumption.
    + apply (validated_lengths _ _ V).
    + apply (validated_lengths _ _ V).
Qed.

(** X6. A JSON body that is not an object (null, a number, a string, a
    list) makes both POST handlers raise [AttributeError] at [data.get],
    before they have touched the world: the client gets the 500 page, and
    all that is left behind is the record with which Flask logs the
    exception; the database and the connection trace are as they were. *)
Theorem non_object_body_is_500 (salt : bytes) (v : pyval) (w : world) :
  (forall d, v <> PDict d) ->
  create_user salt (json_request v) w = (Raise AttributeError, w)
  /\ login (json_request v) w = (Raise AttributeError, w)
  /\ flask_dispatch "/users" "POST" (create_user salt (json_request v)) w
     = ((500, ErrorPage),
        mk_world (db w) (trace w)
          (log w ++ [mk_log ERROR "Exception on /users [POST]" []]))
  /\ flask_dispatch "/login" "POST" (login (json_request v)) w
     = ((500, ErrorPage),
        mk_world (db w) (trace w)
          (log w ++ [mk_log ERROR "Exception on /login [POST]" []])).
Proof.
  intros H. destruct v; try (repeat split; reflexivity).
  destruct (H d eq_refl).
Qed.

Lemma login_db (req : request) (w : world) : db (snd (login req w)) = db w.
Proof.
  destruct (login_cases req w) as [[Hw _]|(d & s & -> & Hu & Hm)].
  - rewrite Hw. reflexivity.
  - rewrite (login_present d s w Hu Hm).
    destruct (db w) as [| |t]; try reflexivity.
    destruct (find_user (strip s) t) as [r|]; [|reflexivity].
    destruct (dict_get d "password" (PStr "")); try reflexivity.
    destruct (checkpw _ _) as [[]|]; reflexivity.
Qed.

Lemma get_users_db (w : world) : db (snd (get_users w)) = db w.
Proof.
  destruct (db w) as [| |t] eqn:E.
  - rewrite get_users_unreachable by exact E. reflexivity.
  - rewrite get_users_no_table by exact E. reflexivity.
  - rewrite (get_users_ready w t) by exact E. reflexivity.
Qed.

(** X4. [login], [get_users] and [health_check] never change the
    database, whatever the request and the world. *)
Theorem read_only_handlers (env : environ) (req : request) (w : world) :
  db (snd (login req w)) = db w
  /\ db (snd (get_users w)) = db w
  /\ db (snd (health_check env w)) = db w.
Proof.
  split; [apply login_db|]. split; [apply get_users_db|reflexivity].
Qed.

(** What [create_user] does to the database, for any request. *)
Lemma create_user_db (salt : bytes) (req : request) (w : world) :
  (db (snd (create_user salt req w)) = db w
   /\ forall resp, fst (create_user salt req w) = Ok resp -> status resp <> 201)
  \/ exists t d s p h,
       db w = DbReady t
       /\ req = json_request (PDict d)
       /\ dict_get d "username" (PStr "") = PStr s
       /\ dict_get d "password" (PStr "") = PStr p
       /\ validate_username_password (PStr (strip s)) (PStr p) = None
       /\ hashed_text (encode p) salt = Some h
       /\ username_taken (strip s) t = false
       /\ fst (create_user salt req w)
          = Ok (mk_response (PDict [("message", PStr "User created");
                                    ("username", PStr (strip s))]) 201)
       /\ db (snd (create_user salt req w))
          = DbReady (insert_row (strip s) h t).
Proof.
  destruct (create_user_cases salt req w)
    as [[Hw Hs]|(d & s & p & h & -> & Hu & Hp & V & Hh)].
  - left. rewrite Hw. split; [reflexivity|].
    intros resp Hr. rewrite (Hs resp Hr). discriminate.
  - rewrite (create_user_validated salt d s p h w Hu Hp V Hh).
    destruct (db w) as [| |t];
      try (left; split; [reflexivity|intros resp [= <-]; discriminate]).
    destruct (username_taken (strip s) t) eqn:T.
    + left. split; [reflexivity|intros resp [= <-]; discriminate].
    + right. exists t, d, s, p, h. repeat split; assumption.
Qed.

(** X5. [create_user] changes the table only when it answers 201, and
    then by appending one row for the trimmed username of the request,
    which the table did not hold; in every other case, errors included,
    the database is as it was. *)
Theorem register_effect (salt : bytes) (req : request) (w : world) :
  match fst (create_user salt req w) with
  | Ok resp =>
      if status resp =? 201
      then exists t d s h,
             db w = DbReady t
             /\ json_body req = Some (PDict d)
             /\ dict_get d "username" (PStr "") = PStr s
             /\ username_taken (strip s) t = false
             /\ body resp = PDict [("message", PStr "User created");
                                   ("username", PStr (strip s))]
             /\ db (snd (create_user salt req w))
                = DbReady (insert_row (strip s) h t)
      else db (snd (create_user salt req w)) = db w
  | Raise _ => db (snd (create_user salt req w)) = db w
  end.
Proof.
  destruct (create_user_db salt req w)
    as [[Hd Hs]|(t & d & s & p & h & E & -> & Hu & _ & _ & _ & T & Hr & Hd)].
  - destruct (fst (create_user salt req w)) as [resp|e]; [|exact Hd].
    destruct (status resp =? 201) eqn:E; [|exact Hd].
    apply Z.eqb_eq in E. destruct (Hs resp eq_refl E).
  - rewrite Hr. cbn [status Z.eqb Pos.eqb body].
    exists t, d, s, h. repeat split; assumption.
Qed.

End Requests.

(** ** Invariants of the table *)

Section Invariants.
Context {B : Bcrypt}.
Import PyStrFacts Utf8Facts StoreFacts ValidationFacts.

Lemma max_id_bound (r : user_row) (l : list user_row) :
  In r l -> row_id r <= max_id l.
Proof.
  induction l as [|x l IH]; cbn [In max_id fold_right]; [contradiction|].
  intros [->|H]; [lia|]. specialize (IH H). unfold max_id in IH. lia.
Qed.

Lemma ids_below_next (t : table) : Forall (fun i => i < next_id t) (ids t).
Proof.
  apply Forall_forall. intros i Hi. apply in_map_iff in Hi.
  destruct Hi as (r & <- & Hr). pose proof (max_id_bound r _ Hr).
  unfold next_id. lia.
Qed.

Lemma not_taken (u : string) (t : table) :
  username_taken u t = false -> ~ In u (usernames t).
Proof.
  unfold username_taken, usernames. intros H Hin.
  apply in_map_iff in Hin. destruct Hin as (r & <- & Hr).
  assert (E : existsb (fun r0 => String.eqb (row_username r0) (row_username r))
                (rows t) = true).
  { apply existsb_exists. exists r. split; [exact Hr|apply String.eqb_refl]. }
  rewrite E in H. discriminate H.
Qed.

Lemma NoDup_snoc {A : Type} (l : list A) (x : A) :
  NoDup l -> ~ In x l -> NoDup (l ++ [x]).
Proof.
  induction l as [|y l IH]; cbn [app]; intros Hl Hx.
  - constructor; [exact (fun f => f)|constructor].
  - inversion Hl as [|? ? Hy Hl']; subst. constructor.
    + intros Hin. apply in_app_or in Hin. destruct Hin as [Hin|[->|[]]].
      * exact (Hy Hin).
      * apply Hx. left. reflexivity.
    + apply IH; [exact Hl'|]. intros Hin. apply Hx. right. exact Hin.
Qed.

Lemma table_ok_insert (u h : string) (t : table) :
  table_ok t -> username_taken u t = false -> stored_form u ->
  table_ok (insert_row u h t).
Proof.
  intros (Hu & Hi & Hf) T S. unfold table_ok, usernames, ids, insert_row.
  cbn [rows]. rewrite !map_app. cbn [map row_username row_id].
  split; [|split].
  - apply NoDup_snoc; [exact Hu|]. apply not_taken. exact T.
  - apply NoDup_snoc; [exact Hi|]. intros Hin.
    pose proof (ids_below_next t) as Hb.
    rewrite Forall_forall in Hb. specialize (Hb _ Hin). lia.
  - apply Forall_app. split; [exact Hf|]. constructor; [exact S|constructor].
Qed.

(** What one request does to the database. *)
Lemma route_db (env : environ) (c : call) (w : world) :
  db (snd (route env c w)) = db w
  \/ exists t u h,
       db w = DbReady t /\ username_taken u t = false /\ stored_form u
       /\ db (snd (route env c w)) = DbReady (insert_row u h t).
Proof.
  destruct c as [| |salt req|req]; cbn [route].
  - left. reflexivity.
  - left. apply get_users_db.
  - destruct (create_user_db salt req w)
      as [[Hd _]|(t & d & s & p & h & E & _ & _ & _ & V & _ & T & _ & Hd)].
    + left. exact Hd.
    + right. exists t, (strip s), h. repeat split; try assumption.
      * apply strip_idempotent.
      * apply (validated_lengths _ _ V).
  - left. apply login_db.
Qed.

(** X7. Whatever requests are served, a well-formed table stays
    well-formed: usernames stay pairwise distinct, ids stay pairwise
    distinct, and every stored username is trimmed and has three characters
    or more. *)
Theorem table_stays_well_formed (env : environ) (cs : list call) (w : world) :
  db_ok (db w) -> db_ok (db (serve_all env cs w)).
Proof.
  revert w. induction cs as [|c cs IH]; intros w H; [exact H|].
  cbn [serve_all]. apply IH.
  destruct (route_db env c w) as [->|(t & u & h & E & T & S & ->)]; [exact H|].
  rewrite E in H. cbn [db_ok] in *. apply table_ok_insert; assumption.
Qed.

(** X8. No request deletes or alters a row, and none creates the table:
    after any requests a table holds the rows it had, in their order,
    followed by the new ones; a database that is unreachable or has no
    [users] table is still so. *)
Theorem rows_only_grow (env : environ) (cs : list call) (w : world) :
  match db w with
  | DbReady t =>
      exists added n, db (serve_all env cs w) = DbReady (mk_table (rows t ++ added) n)
  | d => db (serve_all env cs w) = d
  end.
Proof.
  revert w. induction cs as [|c cs IH]; intros w.
  - cbn [serve_all]. destruct (db w) as [| |[l n]]; try reflexivity.
    exists [], n. rewrite app_nil_r. reflexivity.
  - cbn [serve_all]. specialize (IH (snd (route env c w))).
    destruct (route_db env c w) as [E|(t & u & h & E & _ & _ & E')].
    + rewrite E in IH. exact IH.
    + rewrite E' in IH. rewrite E. destruct IH as (added & n & IH).
      cbn [insert_row rows] in IH. rewrite <- app_assoc in IH.
      eexists. eexists. exact IH.
Qed.

(** X9. The id of a new user is larger than every id in the table, and the
    list of users after a registration answered 201 holds the records of
    the list before it and the record of the new user, each once and
    nothing else; where the new record stands in it is for the index on
    [username] to say. *)
Theorem register_then_list (salt : bytes) (req : request) (w w1 : world)
  (r : response) :
  create_user salt req w = (Ok r, w1) ->
  status r = 201 ->
  exists t u,
    db w = DbReady t
    /\ body r = PDict [("message", PStr "User created"); ("username", PStr u)]
    /\ Forall (fun i => i < next_id t) (ids t)
    /\ Permutation
         (response_users (fst (get_users w1)))
         (response_users (fst (get_users w))
          ++ [PDict [("id", PInt (next_id t)); ("username", PStr u)]]).
Proof.
  intros Hc Hs.
  destruct (create_user_db salt req w)
    as [[_ Hn]|(t & d & s & p & h & E & _ & _ & _ & _ & _ & _ & Hr & Hd)].
  - rewrite Hc in Hn. destruct (Hn r eq_refl Hs).
  - rewrite Hc in Hr, Hd. cbn [fst snd] in Hr, Hd. injection Hr as ->.
    exists t, (strip s). split; [exact E|]. split; [reflexivity|].
    split; [apply ids_below_next|].
    rewrite (get_users_ready w t E).
    rewrite (get_users_ready w1 _ Hd).
    cbn [fst response_users body assoc String.eqb Ascii.eqb Bool.eqb].
    cbn [insert_row rows].
    change (PDict [("id", PInt (next_id t)); ("username", PStr (strip s))])
      with (user_record (mk_row (next_id t) (strip s) h)).
    rewrite (Permutation_map user_record (index_order_perm _)).
    rewrite map_app. cbn [map]. apply Permutation_app_tail.
    symmetry. apply Permutation_map, index_order_perm.
Qed.

End Invariants.

(** ** Authentication *)

Section Authentication.
Context {B : Bcrypt}.
Import PyStrFacts Utf8Facts StoreFacts ValidationFacts.

(** X10. [login] answers 200 only when the table holds a row for the
    trimmed username and [checkpw] accepts the password against the hash of
    that row; the [user_id] of the answer is the id of that row. *)
Theorem login_sound (req : request) (w w' : world) (resp : response) :
  login req w = (Ok resp, w') ->
  status resp = 200 ->
  exists d s p t r,
    json_body req = Some (PDict d)
    /\ dict_get d "username" (PStr "") = PStr s
    /\ dict_get d "password" (PStr "") = PStr p
    /\ db w = DbReady t
    /\ find_user (strip s) t = Some r
    /\ checkpw (encode p) (encode (row_password r)) = Some true
    /\ body resp = PDict [("message", PStr "Login successful");
                          ("user_id", PInt (row_id r))].
Proof.
  intros Hl Hs.
  destruct (login_cases req w) as [[_ H4]|(d & s & -> & Hu & Hm)].
  { rewrite Hl in H4. rewrite (H4 resp eq_refl) in Hs. discriminate Hs. }
  rewrite (login_present d s w Hu Hm) in Hl.
  destruct (db w) as [| |t]; try (injection Hl as <- _; discriminate Hs).
  destruct (find_user (strip s) t) as [r|] eqn:F;
    [|injection Hl as <- _; discriminate Hs].
  destruct (dict_get d "password" (PStr "")) as [| | |p| |] eqn:Hp;
    try discriminate Hl.
  destruct (checkpw (encode p) (encode (row_password r))) as [[]|] eqn:C;
    try discriminate Hl; [|injection Hl as <- _; discriminate Hs].
  injection Hl as <- _.
  exists d, s, p, t, r. repeat split; assumption.
Qed.

(** X11. Whitespace around the username does not count: two usernames
    that trim to the same string get the same answer and leave the same
    world, at registration and at login. *)
Theorem username_whitespace_ignored (salt : bytes) (u1 u2 p : string)
  (w : world) :
  strip u1 = strip u2 ->
  create_user salt (post_credentials u1 p) w
  = create_user salt (post_credentials u2 p) w
  /\ login (post_credentials u1 p) w = login (post_credentials u2 p) w.
Proof.
  intros H. split.
  - unfold create_user. run. unfold dict_get.
    cbn [assoc String.eqb Ascii.eqb Bool.eqb]. run. rewrite H. reflexivity.
  - unfold login. run. unfold dict_get.
    cbn [assoc String.eqb Ascii.eqb Bool.eqb]. run. rewrite H. reflexivity.
Qed.



End Authentication.

(** ** The store: failure, start-up, traces *)

Section Store.
Context {B : Bcrypt}.
Import PyStrFacts Utf8Facts StoreFacts ValidationFacts.

(** X14. [get_users] has no handler for storage errors: when the database
    cannot be opened or has no [users] table, the [OperationalError]
    leaves the handler and the client gets the 500 page; the database is as
    it was. *)
Theorem get_users_store_down (w : world) :
  (forall t, db w <> DbReady t) ->
  fst (get_users w) = Raise OperationalError
  /\ fst (flask_dispatch "/users" "GET" get_users w) = (500, ErrorPage)
  /\ db (snd (get_users w)) = db w.
Proof.
  intros H. unfold flask_dispatch. destruct (db w) as [| |t] eqn:E.
  - rewrite get_users_unreachable by exact E. repeat split.
  - rewrite get_users_no_table by exact E. repeat split.
  - destruct (H t eq_refl).
Qed.


(** X16. [init_db] on a database that opens does not fail and leaves the
    [users] table in place: with the rows it had when it existed, empty
    when it did not.  Running it again changes nothing, and [get_users]
    then answers 200. *)
Theorem init_db_makes_table (w : world) :
  db w <> DbUnreachable ->
  fst (init_db w) = Ok tt
  /\ db (snd (init_db w))
     = DbReady (match db w with DbReady t => t | _ => empty_table end)
  /\ db (snd (init_db (snd (init_db w)))) = db (snd (init_db w))
  /\ fst (fst (flask_dispatch "/users" "GET" get_users (snd (init_db w)))) = 200.
Proof.
  intros H.
  assert (I : forall w0 t, db w0 = DbReady t ->
              init_db w0 = (Ok tt,
                mk_world (DbReady t)
                  (trace w0 ++ [EvConnect (fresh_conn (trace w0));
                                EvExecute (fresh_conn (trace w0)) CreateUsersTable;
                                EvCommit (fresh_conn (trace w0))])
                  (log w0))).
  { intros w0 t E. unfold init_db. run. rewrite E. run. tidy. reflexivity. }
  assert (E' : exists w1 t, init_db w = (Ok tt, w1) /\ db w1 = DbReady t
               /\ t = match db w with DbReady t0 => t0 | _ => empty_table end).
  { destruct (db w) as [| |t] eqn:E; [contradiction| |].
    - eexists. exists empty_table. unfold init_db. run. rewrite E. run.
      repeat split.
    - eexists. exists t. rewrite (I w t E). repeat split. }
  destruct E' as (w1 & t & -> & E1 & ->). cbn [fst snd].
  split; [reflexivity|]. split; [exact E1|].
  split.
  - rewrite (I w1 _ E1). cbn [snd db]. symmetry. exact E1.
  - unfold flask_dispatch. rewrite (get_users_ready w1 _ E1). reflexivity.
Qed.

(** X17. A registration does not touch the other accounts: a login under a
    username that trims to another string than the registered one gets the
    same answer after the registration as before it. *)
Theorem register_leaves_others (salt : bytes) (d : list (string * pyval))
  (s u p : string) (w : world) :
  dict_get d "username" (PStr "") = PStr s ->
  strip u <> strip s ->
  fst (flask_dispatch "/login" "POST" (login (post_credentials u p))
         (snd (create_user salt (json_request (PDict d)) w)))
  = fst (flask_dispatch "/login" "POST" (login (post_credentials u p)) w).
Proof.
  intros Hs Hne.
  assert (D : forall w1 w2,
             (db w1 = db w2 \/
              exists t h, db w2 = DbReady t
                          /\ db w1 = DbReady (insert_row (strip s) h t)) ->
             fst (flask_dispatch "/login" "POST" (login (post_credentials u p)) w1)
             = fst (flask_dispatch "/login" "POST" (login (post_credentials u p)) w2)).
  { intros w1 w2 Hd. unfold post_credentials, flask_dispatch.
    set (d' := [("username", PStr u); ("password", PStr p)]).
    assert (Du : dict_get d' "username" (PStr "") = PStr u) by reflexivity.
    destruct (is_empty (strip u)
              || negb (truthy (dict_get d' "password" (PStr "")))) eqn:M.
    - rewrite !(login_missing d' u _ Du M). reflexivity.
    - rewrite !(login_present d' u _ Du M).
      assert (F : forall t h, find_user (strip u) (insert_row (strip s) h t)
                              = find_user (strip u) t).
      { intros t h. unfold find_user, insert_row. cbn [rows].
        induction (rows t) as [|x l IH]; cbn [app find].
        - cbn [row_username]. destruct (String.eqb (strip s) (strip u)) eqn:Eq;
            [|reflexivity].
          apply String.eqb_eq in Eq. destruct (Hne (eq_sym Eq)).
        - destruct (String.eqb (row_username x) (strip u)); [reflexivity|exact IH]. }
      destruct Hd as [Hd|(t & h & E2 & E1)].
      + rewrite Hd. destruct (db w2) as [| |t]; try reflexivity.
        destruct (find_user (strip u) t) as [r|]; [|reflexivity].
        destruct (dict_get d' "password" (PStr "")); try reflexivity.
        destruct (checkpw _ _) as [[]|]; reflexivity.
      + rewrite E1, E2, F.
        destruct (find_user (strip u) t) as [r|]; [|reflexivity].
        destruct (dict_get d' "password" (PStr "")); try reflexivity.
        destruct (checkpw _ _) as [[]|]; reflexivity. }
  apply D.
  destruct (create_user_db salt (json_request (PDict d)) w)
    as [[Hd _]|(t & d0 & s0 & p0 & h & E & [= <-] & Hs0 & _ & _ & _ & _ & _ & Hd)].
  - left. exact Hd.
  - right. rewrite Hs in Hs0. injection Hs0 as <-. exists t, h. split; assumption.
Qed.

(** X18. After a registration answered 201 the new row holds the trimmed
    username and, as password, the text of the bcrypt hash of the submitted
    password under the salt of the call: the column encodes back to that
    hash, byte for byte. *)
Theorem register_stores_hash (L : BcryptLaws B) (salt : bytes) (u p : string)
  (w w1 : world) (r : response) :
  create_user salt (post_credentials u p) w = (Ok r, w1) ->
  status r = 201 ->
  exists t h,
    db w = DbReady t
    /\ db w1 = DbReady (mk_table (rows t ++ [mk_row (next_id t) (strip u) h])
                                 (next_id t))
    /\ hashpw (encode p) salt = Some (encode h).
Proof.
  intros Hc Hs.
  destruct (create_user_db salt (post_credentials u p) w)
    as [[_ Hn]|(t & d & s & q & h & E & Hd & Hu & Hp & _ & Hh & _ & _ & Hw)].
  - rewrite Hc in Hn. destruct (Hn r eq_refl Hs).
  - unfold post_credentials in Hd. injection Hd as <-.
    injection Hu as <-. injection Hp as <-.
    rewrite Hc in Hw. cbn [snd] in Hw.
    exists t, h. split; [exact E|]. split; [exact Hw|].
    exact (hash_of_hashed_text L _ _ _ Hh).
Qed.

(** X19. Every request adds to the connection trace at most one
    operation: nothing, a failed connect, or a connect, one statement on
    the handle of that connect and a commit or a rollback on it.  No
    request closes a connection. *)
Theorem one_operation_per_request (env : environ) (c : call) (w : world) :
  exists evs,
    trace (snd (route env c w)) = trace w ++ evs
    /\ one_operation (fresh_conn (trace w)) evs.
Proof.
  assert (N : forall w0 : world, exists evs,
             trace w0 = trace w0 ++ evs
             /\ one_operation (fresh_conn (trace w)) evs).
  { intros w0. exists []. rewrite app_nil_r. split; [reflexivity|left; reflexivity]. }
  assert (F : forall l d,
             exists evs,
               trace (mk_world d (trace w ++ [EvConnectFailed]) l) = trace w ++ evs
               /\ one_operation (fresh_conn (trace w)) evs).
  { intros l d. eexists. split; [reflexivity|]. right. left. reflexivity. }
  assert (C : forall l d s,
             exists evs,
               trace (mk_world d (trace w ++ [EvConnect (fresh_conn (trace w));
                                              EvExecute (fresh_conn (trace w)) s;
                                              EvCommit (fresh_conn (trace w))]) l)
               = trace w ++ evs
               /\ one_operation (fresh_conn (trace w)) evs).
  { intros l d s. eexists. split; [reflexivity|]. right. right. exists s.
    left. reflexivity. }
  assert (R : forall l d s,
             exists evs,
               trace (mk_world d (trace w ++ [EvConnect (fresh_conn (trace w));
                                              EvExecute (fresh_conn (trace w)) s;
                                              EvRollback (fresh_conn (trace w))]) l)
               = trace w ++ evs
               /\ one_operation (fresh_conn (trace w)) evs).
  { intros l d s. eexists. split; [reflexivity|]. right. right. exists s.
    right. reflexivity. }
  destruct c as [| |salt req|req]; cbn [route].
  - apply N.
  - destruct (db w) as [| |t] eqn:E.
    + rewrite get_users_unreachable by exact E. apply F.
    + rewrite get_users_no_table by exact E. apply R.
    + rewrite (get_users_ready w t) by exact E. apply C.
  - destruct (create_user_cases salt req w)
      as [[Hw _]|(d & s & p & h & -> & Hu & Hp & V & Hh)].
    + rewrite Hw. apply N.
    + rewrite (create_user_validated salt d s p h w Hu Hp V Hh).
      destruct (db w) as [| |t]; [apply F|apply R|].
      destruct (username_taken (strip s) t); [apply R|apply C].
  - destruct (login_cases req w) as [[Hw _]|(d & s & -> & Hu & Hm)].
    + rewrite Hw. apply N.
    + rewrite (login_present d s w Hu Hm).
      destruct (db w) as [| |t]; [apply F|apply R|].
      destruct (find_user (strip s) t) as [r|]; [|apply C].
      destruct (dict_get d "password" (PStr "")); try apply C.
      destruct (checkpw _ _) as [[]|]; apply C.
Qed.

End Store.

(** ** Accounts *)

Section Accounts.
Context {B : Bcrypt}.
Import PyStrFacts Utf8Facts StoreFacts ValidationFacts.

(** The answer of [login] is a function of the request and the database. *)
Lemma login_answer_db (req : request) (w1 w2 : world) :
  db w1 = db w2 ->
  fst (flask_dispatch "/login" "POST" (login req) w1) = fst (flask_dispatch "/login" "POST" (login req) w2).
Proof.
  intros H. unfold flask_dispatch.
  destruct req as [[] [v|]]; try reflexivity.
  destruct v; try reflexivity.
  change (mk_request true (Some (PDict d))) with (json_request (PDict d)).
  destruct (dict_get d "username" (PStr "")) as [| | |s| |] eqn:Hu;
    try (unfold login; run; rewrite Hu; reflexivity).
  destruct (is_empty (strip s)
            || negb (truthy (dict_get d "password" (PStr "")))) eqn:M.
  - rewrite !(login_missing d s _ Hu M). reflexivity.
  - rewrite !(login_present d s _ Hu M). rewrite H.
    destruct (db w2) as [| |t]; try reflexivity.
    destruct (find_user (strip s) t) as [r|]; [|reflexivity].
    destruct (dict_get d "password" (PStr "")); try reflexivity.
    destruct (checkpw _ _) as [[]|]; reflexivity.
Qed.

(** X20. A registration under a username that the table already holds,
    once trimmed, never changes the database, whatever password it
    carries, and is never answered 201: the stored hash of the account
    stays, and so does every answer of [login]. *)
Theorem register_cannot_take_over (salt : bytes) (d : list (string * pyval))
  (s : string) (w : world) (t : table) (req : request) :
  db w = DbReady t ->
  dict_get d "username" (PStr "") = PStr s ->
  username_taken (strip s) t = true ->
  let w1 := snd (create_user salt (json_request (PDict d)) w) in
  db w1 = db w
  /\ fst (fst (flask_dispatch "/users" "POST" (create_user salt (json_request (PDict d))) w))
     <> 201
  /\ fst (flask_dispatch "/login" "POST" (login req) w1) = fst (flask_dispatch "/login" "POST" (login req) w).
Proof.
  intros E Hs T w1. subst w1.
  assert (Hd : db (snd (create_user salt (json_request (PDict d)) w)) = db w
               /\ fst (fst (flask_dispatch "/users" "POST"
                              (create_user salt (json_request (PDict d))) w))
                  <> 201).
  { destruct (create_user_db salt (json_request (PDict d)) w)
      as [[Hd Hn]|(t' & d0 & s0 & p0 & h & E' & [= <-] & Hs0 & _ & _ & _ & T' & _)].
    - split; [exact Hd|]. unfold flask_dispatch.
      destruct (create_user salt (json_request (PDict d)) w) as [[resp|e] w'].
      + cbn [fst]. apply (Hn resp eq_refl).
      + destruct e; discriminate.
    - rewrite E in E'. injection E' as <-. rewrite Hs in Hs0.
      injection Hs0 as <-. rewrite T in T'. discriminate T'. }
  destruct Hd as [Hd Hn]. split; [exact Hd|]. split; [exact Hn|].
  apply login_answer_db. exact Hd.
Qed.

(** X21. Whoever logs in is listed: when [login] answers 200, the list of
    users served next holds a record with the [user_id] of the answer and
    the trimmed username of the request. *)
Theorem login_then_list (d : list (string * pyval)) (s : string)
  (w w' : world) (resp : response) :
  dict_get d "username" (PStr "") = PStr s ->
  login (json_request (PDict d)) w = (Ok resp, w') ->
  status resp = 200 ->
  exists i,
    body resp = PDict [("message", PStr "Login successful");
                       ("user_id", PInt i)]
    /\ In (PDict [("id", PInt i); ("username", PStr (strip s))])
          (response_users (fst (get_users w'))).
Proof.
  intros Hu Hl Hs.
  destruct (is_empty (strip s)
            || negb (truthy (dict_get d "password" (PStr "")))) eqn:M.
  { rewrite (login_missing d s w Hu M) in Hl. injection Hl as <- _.
    discriminate Hs. }
  rewrite (login_present d s w Hu M) in Hl.
  destruct (db w) as [| |t]; try (injection Hl as <- _; discriminate Hs).
  destruct (find_user (strip s) t) as [r|] eqn:F;
    [|injection Hl as <- _; discriminate Hs].
  destruct (dict_get d "password" (PStr "")) as [| | |p| |];
    try discriminate Hl.
  destruct (checkpw (encode p) (encode (row_password r))) as [[]|];
    try discriminate Hl; [|injection Hl as <- _; discriminate Hs].
  injection Hl as <- <-.
  exists (row_id r). split; [reflexivity|].
  erewrite (get_users_ready (mk_world _ _ _)) by reflexivity.
  cbn [fst response_users body assoc String.eqb Ascii.eqb Bool.eqb].
  unfold find_user in F. apply find_some in F. destruct F as [Hin Heq].
  apply String.eqb_eq in Heq. rewrite <- Heq.
  apply (in_map user_record). apply (proj2 (index_order_In _ _)). exact Hin.
Qed.

End Accounts.

(** ** The further statements at concrete requests *)

Module MoreWitnesses.
Import Demo DemoFacts.

Lemma register_nonstring_password_witness :
  create_user [] (json_request (PDict [("username", PStr "alice123");
                                       ("password", PInt 12345678)]))
    fresh_world
  = (Ok (mk_response
           (PDict [("error", PStr "Password must be at least 8 characters.")])
           400),
     fresh_world).
Proof.
  apply (register_nonstring_password [] _ "alice123" fresh_world).
  - reflexivity.
  - vm_compute. discriminate.
  - reflexivity.
Defined.

Lemma register_store_after_validation_witness :
  exists d s p,
    is_json (post_credentials "alice123" "correct-horse") = true
    /\ json_body (post_credentials "alice123" "correct-horse") = Some (PDict d)
    /\ dict_get d "username" (PStr "") = PStr s
    /\ dict_get d "password" (PStr "") = PStr p
    /\ 3 <= len (strip s) /\ 8 <= len p.
Proof.
  apply (register_store_after_validation []
           (post_credentials "alice123" "correct-horse") fresh_world).
  vm_compute. discriminate.
Defined.

Lemma non_object_body_is_500_witness :
  let v := PList [PStr "alice123"] in
  let w := fresh_world in
  create_user [] (json_request v) w = (Raise AttributeError, w)
  /\ login (json_request v) w = (Raise AttributeError, w)
  /\ flask_dispatch "/users" "POST" (create_user [] (json_request v)) w
     = ((500, ErrorPage),
        mk_world (db w) (trace w)
          (log w ++ [mk_log ERROR "Exception on /users [POST]" []]))
  /\ flask_dispatch "/login" "POST" (login (json_request v)) w
     = ((500, ErrorPage),
        mk_world (db w) (trace w)
          (log w ++ [mk_log ERROR "Exception on /login [POST]" []])).
Proof.
  intros v w.
  apply (non_object_body_is_500 [] (PList [PStr "alice123"]) fresh_world).
  intros d. discriminate.
Defined.

Lemma table_stays_well_formed_witness :
  db_ok (db (serve_all empty_environ
               [PostUsers [] (post_credentials "alice123" "correct-horse");
                PostLogin (post_credentials "alice123" "correct-horse");
                GetUsers;
                PostUsers [] (post_credentials " alice123 " "another-pass");
                PostUsers [] (post_credentials "bob" "12345678");
                GetHealth]
               fresh_world)).
Proof.
  apply (table_stays_well_formed empty_environ _ fresh_world).
  vm_compute. repeat constructor.
Defined.

Lemma register_then_list_witness :
  let w := snd (create_user [] (post_credentials "zed12345" "correct-horse")
                  fresh_world) in
  let w1 := snd (create_user [] (post_credentials "alice123" "correct-horse")
                   w) in
  exists t u,
    db w = DbReady t
    /\ body (mk_response (PDict [("message", PStr "User created");
                                 ("username", PStr "alice123")]) 201)
       = PDict [("message", PStr "User created"); ("username", PStr u)]
    /\ Forall (fun i => i < next_id t) (ids t)
    /\ Permutation
         (response_users (fst (get_users w1)))
         (response_users (fst (get_users w))
          ++ [PDict [("id", PInt (next_id t)); ("username", PStr u)]]).
Proof.
  intros w w1.
  apply (register_then_list [] (post_credentials "alice123" "correct-horse")
           w w1).
  - vm_compute. reflexivity.
  - reflexivity.
Defined.

Lemma login_sound_witness :
  exists d s p t r,
    json_body (post_credentials "alice123" "correct-horse") = Some (PDict d)
    /\ dict_get d "username" (PStr "") = PStr s
    /\ dict_get d "password" (PStr "") = PStr p
    /\ db alice_world = DbReady t
    /\ find_user (strip s) t = Some r
    /\ checkpw (encode p) (encode (row_password r)) = Some true
    /\ body (mk_response (PDict [("message", PStr "Login successful");
                                 ("user_id", PInt 1)]) 200)
       = PDict [("message", PStr "Login successful");
                ("user_id", PInt (row_id r))].
Proof.
  apply (login_sound (post_credentials "alice123" "correct-horse") alice_world
           (snd (login (post_credentials "alice123" "correct-horse")
                   alice_world))).
  - vm_compute. reflexivity.
  - reflexivity.
Defined.

Lemma username_whitespace_ignored_witness :
  create_user [] (post_credentials "alice123" "correct-horse") fresh_world
  = create_user [] (post_credentials "  alice123 " "correct-horse") fresh_world
  /\ login (post_credentials "alice123" "correct-horse") fresh_world
     = login (post_credentials "  alice123 " "correct-horse") fresh_world.
Proof.
  apply (username_whitespace_ignored [] "alice123" "  alice123 "
           "correct-horse" fresh_world).
  vm_compute. reflexivity.
Defined.



Lemma get_users_store_down_witness :
  fst (get_users (mk_world DbNoTable [] [])) = Raise OperationalError
  /\ fst (flask_dispatch "/users" "GET" get_users (mk_world DbNoTable [] [])) = (500, ErrorPage)
  /\ db (snd (get_users (mk_world DbNoTable [] []))) = DbNoTable.
Proof.
  apply (get_users_store_down (mk_world DbNoTable [] [])).
  intros t. discriminate.
Defined.


Lemma init_db_makes_table_witness :
  let w := mk_world DbNoTable [] [] in
  fst (init_db w) = Ok tt
  /\ db (snd (init_db w)) = DbReady empty_table
  /\ db (snd (init_db (snd (init_db w)))) = db (snd (init_db w))
  /\ fst (fst (flask_dispatch "/users" "GET" get_users (snd (init_db w)))) = 200.
Proof.
  intros w. apply (init_db_makes_table w). discriminate.
Defined.

Lemma register_leaves_others_witness :
  fst (flask_dispatch "/login" "POST" (login (post_credentials "alice123" "correct-horse"))
         (snd (create_user [] (post_credentials "bob99" "password-one")
                 alice_world)))
  = fst (flask_dispatch "/login" "POST" (login (post_credentials "alice123" "correct-horse"))
           alice_world).
Proof.
  apply (register_leaves_others [] _ "bob99" "alice123" "correct-horse"
           alice_world).
  - reflexivity.
  - vm_compute. discriminate.
Defined.

Lemma register_stores_hash_witness :
  exists t h,
    db fresh_world = DbReady t
    /\ db alice_world
       = DbReady (mk_table (rows t ++ [mk_row (next_id t) (strip "alice123") h])
                           (next_id t))
    /\ hashpw (encode "correct-horse") [] = Some (encode h).
Proof.
  apply (register_stores_hash demo_bcrypt_laws [] "alice123" "correct-horse"
           fresh_world alice_world
           (mk_response (PDict [("message", PStr "User created");
                                ("username", PStr "alice123")]) 201)).
  - vm_compute. reflexivity.
  - reflexivity.
Defined.

Lemma register_cannot_take_over_witness :
  let d := [("username", PStr " alice123"); ("password", PStr "attacker-pw")] in
  let req := post_credentials "alice123" "correct-horse" in
  let w1 := snd (create_user [] (json_request (PDict d)) alice_world) in
  db w1 = db alice_world
  /\ fst (fst (flask_dispatch "/users" "POST" (create_user [] (json_request (PDict d)))
                 alice_world)) <> 201
  /\ fst (flask_dispatch "/login" "POST" (login req) w1)
     = fst (flask_dispatch "/login" "POST" (login req) alice_world).
Proof.
  intros d req.
  apply (register_cannot_take_over [] d " alice123" alice_world
           (mk_table [mk_row 1 "alice123" "gdgphchcgfgdhecngigphchdgf"] 1) req).
  - vm_compute. reflexivity.
  - reflexivity.
  - vm_compute. reflexivity.
Defined.

Lemma login_then_list_witness :
  exists i,
    body (mk_response (PDict [("message", PStr "Login successful");
                              ("user_id", PInt 1)]) 200)
    = PDict [("message", PStr "Login successful"); ("user_id", PInt i)]
    /\ In (PDict [("id", PInt i); ("username", PStr (strip "alice123 "))])
          (response_users
             (fst (get_users
                     (snd (login (post_credentials "alice123 " "correct-horse")
                             alice_world))))).
Proof.
  apply (login_then_list
           [("username", PStr "alice123 "); ("password", PStr "correct-horse")]
           "alice123 " alice_world
           (snd (login (post_credentials "alice123 " "correct-horse")
                   alice_world))).
  - reflexivity.
  - vm_compute. reflexivity.
  - reflexivity.
Defined.

End MoreWitnesses.
